(** * graphenestorage: the master-password manager and the store interface

    A shallow embedding of [graphenestorage/masterpassword.py] and
    [graphenestorage/interfaces.py].

    Conventions.
    - A Python [str] is a [string]; a character whose code is 128 or more
      stands for a non-ASCII code point, so [bytes(s, "ascii")] fails on it.
    - A Python [bytes] value is a [list byte].
    - A method of [MasterPassword] is a computation in the monad [M]: it
      takes the state (the object's attributes, the config store, the
      process environment and the entropy source) and gives an outcome
      (a returned value or a raised exception) with the state it leaves. *)

From Stdlib Require Import NArith Ascii String List Bool Lia.
From Stdlib.Strings Require Import Byte.
From stdpp Require Import base option gmap strings.
Import ListNotations.

Local Open Scope string_scope.
Local Open Scope list_scope.

(* ===================================================================== *)
(** ** Bytes, hexadecimal rendering *)
(* ===================================================================== *)

Module Hex.

(** The sixteen lowercase digits used by [binascii.hexlify] and by
    [hashlib]'s [hexdigest]. *)
Definition digits : list byte :=
  list_byte_of_string "0123456789abcdef".

Definition digit (n : N) : byte := nth (N.to_nat n) digits "0"%byte.

(** [binascii.hexlify]: two digits per byte, high nibble first. *)
Definition hexlify (bs : list byte) : list byte :=
  flat_map (fun b => [digit (Byte.to_N b / 16); digit (Byte.to_N b mod 16)]) bs.

Definition is_hexdigit (b : byte) : bool :=
  existsb (Byte.eqb b) digits.

(** Value of one hexadecimal digit, [None] for any other character. *)
Definition digit_value (b : byte) : option N :=
  let n := Byte.to_N b in
  if ((48 <=? n) && (n <=? 57))%N then Some (n - 48)%N
  else if ((97 <=? n) && (n <=? 102))%N then Some (n - 87)%N
  else None.

(** [binascii.unhexlify] restricted to lowercase digits; [None] stands for
    [binascii.Error]. *)
Fixpoint unhexlify (cs : list byte) : option (list byte) :=
  match cs with
  | [] => Some []
  | hi :: lo :: rest =>
      match digit_value hi, digit_value lo, unhexlify rest with
      | Some h, Some l, Some bs =>
          match Byte.of_N (16 * h + l) with
          | Some b => Some (b :: bs)
          | None => None
          end
      | _, _, _ => None
      end
  | [_] => None
  end.

End Hex.

(* ===================================================================== *)
(** ** SHA-256 (FIPS 180-4), as computed by [hashlib.sha256] *)
(* ===================================================================== *)

Module SHA256.

Local Open Scope N_scope.

Definition modulus : N := 2 ^ 32.
Definition add32 (x y : N) : N := (x + y) mod modulus.
Definition not32 (x : N) : N := N.lxor x (modulus - 1).
Definition rotr (n x : N) : N :=
  N.lor (N.shiftr x n) (N.shiftl x (32 - n) mod modulus).

Definition choose (x y z : N) : N :=
  N.lxor (N.land x y) (N.land (not32 x) z).
Definition majority (x y z : N) : N :=
  N.lxor (N.lxor (N.land x y) (N.land x z)) (N.land y z).
Definition big_sigma0 (x : N) : N :=
  N.lxor (N.lxor (rotr 2 x) (rotr 13 x)) (rotr 22 x).
Definition big_sigma1 (x : N) : N :=
  N.lxor (N.lxor (rotr 6 x) (rotr 11 x)) (rotr 25 x).
Definition small_sigma0 (x : N) : N :=
  N.lxor (N.lxor (rotr 7 x) (rotr 18 x)) (N.shiftr x 3).
Definition small_sigma1 (x : N) : N :=
  N.lxor (N.lxor (rotr 17 x) (rotr 19 x)) (N.shiftr x 10).

(** Big-endian grouping of bytes into 32-bit words. *)
Fixpoint words_of_bytes (bs : list N) : list N :=
  match bs with
  | a :: b :: c :: d :: rest =>
      (a * 2 ^ 24 + b * 2 ^ 16 + c * 2 ^ 8 + d) :: words_of_bytes rest
  | _ => []
  end.

Definition byte_of_N (n : N) : byte :=
  match Byte.of_N (n mod 256) with Some b => b | None => "000"%byte end.

Definition bytes_of_word (x : N) : list byte :=
  [byte_of_N (N.shiftr x 24); byte_of_N (N.shiftr x 16);
   byte_of_N (N.shiftr x 8); byte_of_N x].

(** The round constants, written as one run of hexadecimal digits and cut
    into words of eight digits. *)
Definition round_constant_digits : string :=
  "428a2f9871374491b5c0fbcfe9b5dba53956c25b59f111f1923f82a4ab1c5ed5" ++
  "d807aa9812835b01243185be550c7dc372be5d7480deb1fe9bdc06a7c19bf174" ++
  "e49b69c1efbe47860fc19dc6240ca1cc2de92c6f4a7484aa5cb0a9dc76f988da" ++
  "983e5152a831c66db00327c8bf597fc7c6e00bf3d5a7914706ca635114292967" ++
  "27b70a852e1b21384d2c6dfc53380d13650a7354766a0abb81c2c92e92722c85" ++
  "a2bfe8a1a81a664bc24b8b70c76c51a3d192e819d6990624f40e3585106aa070" ++
  "19a4c1161e376c082748774c34b0bcb5391c0cb34ed8aa4a5b9cca4f682e6ff3" ++
  "748f82ee78a5636f84c878148cc7020890befffaa4506cebbef9a3f7c67178f2".

Definition words_of_digits (s : string) : list N :=
  match Hex.unhexlify (list_byte_of_string s) with
  | Some bs => words_of_bytes (map Byte.to_N bs)
  | None => []
  end.

Definition round_constants : list N :=
  Eval vm_compute in words_of_digits round_constant_digits.

(** The eight working variables, also the running hash value. *)
Record registers : Type := Registers {
  ra : N; rb : N; rc : N; rd : N; re : N; rf : N; rg : N; rh : N
}.

Definition initial_hash : registers :=
  Registers 0x6a09e667 0xbb67ae85 0x3c6ef372 0xa54ff53a
            0x510e527f 0x9b05688c 0x1f83d9ab 0x5be0cd19.

(** Padding: a single 1 bit, zeros up to 56 modulo 64 bytes, then the
    length in bits on eight bytes. *)
Definition length_bytes (bits : N) : list N :=
  map (fun i => N.shiftr bits (8 * i) mod 256) [7; 6; 5; 4; 3; 2; 1; 0].

Definition pad (msg : list N) : list N :=
  let len := length msg in
  let zeros := ((64 - (len + 9) mod 64) mod 64)%nat in
  msg ++ [128] ++ repeat 0 zeros ++ length_bytes (8 * N.of_nat len).

Fixpoint blocks (count : nat) (ws : list N) : list (list N) :=
  match count with
  | O => []
  | S count' => firstn 16 ws :: blocks count' (skipn 16 ws)
  end.

(** Message schedule, kept newest word first while it grows. *)
Fixpoint extend_schedule (steps : nat) (newest_first : list N) : list N :=
  match steps with
  | O => newest_first
  | S steps' =>
      let at_ i := nth i newest_first 0 in
      let next :=
        add32 (add32 (small_sigma1 (at_ 1%nat)) (at_ 6%nat))
              (add32 (small_sigma0 (at_ 14%nat)) (at_ 15%nat)) in
      extend_schedule steps' (next :: newest_first)
  end.

Definition schedule (block : list N) : list N :=
  rev (extend_schedule 48 (rev block)).

Definition round (r : registers) (kw : N * N) : registers :=
  let t1 :=
    add32 (add32 (add32 (rh r) (big_sigma1 (re r)))
                 (add32 (choose (re r) (rf r) (rg r)) (fst kw)))
          (snd kw) in
  let t2 := add32 (big_sigma0 (ra r)) (majority (ra r) (rb r) (rc r)) in
  Registers (add32 t1 t2) (ra r) (rb r) (rc r)
            (add32 (rd r) t1) (re r) (rf r) (rg r).

Definition compress (h : registers) (block : list N) : registers :=
  let r := fold_left round (combine round_constants (schedule block)) h in
  Registers (add32 (ra h) (ra r)) (add32 (rb h) (rb r))
            (add32 (rc h) (rc r)) (add32 (rd h) (rd r))
            (add32 (re h) (re r)) (add32 (rf h) (rf r))
            (add32 (rg h) (rg r)) (add32 (rh h) (rh r)).

Definition hash_words (msg : list byte) : registers :=
  let ws := words_of_bytes (pad (map Byte.to_N msg)) in
  fold_left compress (blocks (length ws / 16) ws) initial_hash.

(** [hashlib.sha256(msg).digest()] *)
Definition digest (msg : list byte) : list byte :=
  let r := hash_words msg in
  flat_map bytes_of_word [ra r; rb r; rc r; rd r; re r; rf r; rg r; rh r].

(** [hashlib.sha256(msg).hexdigest()] *)
Definition hexdigest (msg : list byte) : string :=
  string_of_list_byte (Hex.hexlify (digest msg)).

End SHA256.

Arguments SHA256.hash_words : simpl never.
Arguments SHA256.digest : simpl never.
Arguments SHA256.hexdigest : simpl never.

(* ===================================================================== *)
(** ** Python strings *)
(* ===================================================================== *)

Module Str.

(** [bool(s)]: a string is true when it is not empty. *)
Definition truthy (s : string) : bool :=
  match s with
  | EmptyString => false
  | String _ _ => true
  end.

(** [bool(v)] for a value that is [None] or a string. *)
Definition truthy_opt (v : option string) : bool :=
  match v with
  | Some s => truthy s
  | None => false
  end.

(** The slice [s[:n]]. *)
Fixpoint take (n : nat) (s : string) : string :=
  match n, s with
  | S n', String c s' => String c (take n' s')
  | _, _ => EmptyString
  end.

(** [s.split(sep)] for a separator of one character: never an empty list,
    and [k] separators give [k + 1] fields. *)
Fixpoint split (sep : ascii) (s : string) : list string :=
  match s with
  | EmptyString => [EmptyString]
  | String c s' =>
      if Ascii.eqb c sep then EmptyString :: split sep s'
      else
        match split sep s' with
        | field :: fields => String c field :: fields
        | [] => [String c EmptyString]
        end
  end.

Fixpoint all_chars (p : ascii -> bool) (s : string) : bool :=
  match s with
  | EmptyString => true
  | String c s' => p c && all_chars p s'
  end.

Definition is_ascii_char (c : ascii) : bool := (N_of_ascii c <? 128)%N.
Definition is_ascii (s : string) : bool := all_chars is_ascii_char s.

Definition dollar : ascii := "$"%char.

End Str.

(* ===================================================================== *)
(** ** Exceptions and fallible values *)
(* ===================================================================== *)

Inductive exn : Type :=
| WrongMasterPasswordException
| WalletLocked
| Exception (message : string)
| ValueError
| TypeError
| AttributeError
| UnicodeEncodeError
| UnicodeDecodeError
| ExternalError (name : string).

(** What a pure call gives: a value, or a raised exception. *)
Inductive result (A : Type) : Type :=
| Ok (a : A)
| Raise (e : exn).
Arguments Ok {A} a.
Arguments Raise {A} e.

Definition result_bind {A B : Type} (r : result A) (k : A -> result B)
  : result B :=
  match r with
  | Ok a => k a
  | Raise e => Raise e
  end.

(** [bytes(s, "ascii")] *)
Definition encode_ascii (s : string) : result (list byte) :=
  if Str.is_ascii s then Ok (list_byte_of_string s)
  else Raise UnicodeEncodeError.

(** [bs.decode("ascii")] *)
Definition decode_ascii (bs : list byte) : result string :=
  if forallb (fun b => (Byte.to_N b <? 128)%N) bs
  then Ok (string_of_list_byte bs)
  else Raise UnicodeDecodeError.

(** [MasterPassword.derive_checksum], a static method:
    [hashlib.sha256(bytes(s, "ascii")).hexdigest()[:4]]. *)
Definition derive_checksum (s : string) : result string :=
  result_bind (encode_ascii s) (fun bs =>
  Ok (Str.take 4 (SHA256.hexdigest bs))).

(* ===================================================================== *)
(** ** [interfaces.py]: StoreInterface *)
(* ===================================================================== *)

Module StoreInterface.
Section Store.
Context {K V : Type} `{Countable K}.

(** A store is a [dict]; [defaults] is the class attribute shared by all
    stores, [items] is what the instance itself holds. *)
Record t : Type := Store {
  defaults : gmap K V;
  items : gmap K V
}.

(** [__init__] has the body [pass]: a new store holds no item, whatever
    the arguments, and reads the defaults of its class. *)
Definition __init__ (class_defaults : gmap K V) : t := Store class_defaults ∅.

Definition empty : t := __init__ ∅.

(** [cls.defaults[key] = value] *)
Definition setdefault (key : K) (value : V) (st : t) : t :=
  Store (<[key := value]> (defaults st)) (items st).

(** [dict.__setitem__(self, key, value)] *)
Definition __setitem__ (key : K) (value : V) (st : t) : t :=
  Store (defaults st) (<[key := value]> (items st)).

(** [dict.__contains__(self, key)] *)
Definition __contains__ (st : t) (key : K) : bool :=
  bool_decide (is_Some (items st !! key)).

(** [__getitem__]: the stored value, else the registered default, else
    [None]. *)
Definition __getitem__ (st : t) (key : K) : option V :=
  if __contains__ st key then items st !! key
  else if bool_decide (is_Some (defaults st !! key)) then defaults st !! key
  else None.

(** [dict.__len__(self)] *)
Definition __len__ (st : t) : nat := size (items st).

(** [dict.get(self, key, default)]: the class defaults are not read. *)
Definition get (st : t) (key : K) (default : option V) : option V :=
  match items st !! key with
  | Some v => Some v
  | None => default
  end.

(** [delete] and [wipe] have the body [pass]. *)
Definition delete (key : K) (st : t) : t := st.
Definition wipe (st : t) : t := st.
End Store.
Arguments t K V {_ _}.
End StoreInterface.

(* ===================================================================== *)
(** ** The state a method runs in *)
(* ===================================================================== *)

(** The operating system's source of random bytes: an unbounded tape and
    the position of the next unread byte. *)
Record entropy : Type := Entropy {
  tape : nat -> byte;
  cursor : nat
}.

(** [os.urandom(n)] *)
Definition urandom (n : nat) (e : entropy) : list byte * entropy :=
  (map (tape e) (seq (cursor e) n), Entropy (tape e) (cursor e + n)).

Record state : Type := State {
  config : StoreInterface.t string string;   (* self.config *)
  password : option string;                  (* self.password *)
  decrypted_master : option string;          (* self.decrypted_master *)
  environ : gmap string string;              (* os.environ *)
  random : entropy
}.

Definition set_config (c : StoreInterface.t string string) (s : state) :=
  State c (password s) (decrypted_master s) (environ s) (random s).
Definition set_password (p : option string) (s : state) :=
  State (config s) p (decrypted_master s) (environ s) (random s).
Definition set_decrypted_master (m : option string) (s : state) :=
  State (config s) (password s) m (environ s) (random s).
Definition set_random (e : entropy) (s : state) :=
  State (config s) (password s) (decrypted_master s) (environ s) e.

(** How a method call ends. [OutOfFuel] is not a Python outcome: it marks
    a run cut short by the bound on the depth of the calls of [unlocked]
    (see [unlocked] below, and [unlocked_fuel] for why one level is
    enough). *)
Inductive outcome (A : Type) : Type :=
| Returns (a : A)
| Raises (e : exn)
| OutOfFuel.
Arguments Returns {A} a.
Arguments Raises {A} e.
Arguments OutOfFuel {A}.

Definition M (A : Type) : Type := state -> outcome A * state.

#[global] Instance M_ret : MRet M := fun A a s => (Returns a, s).

#[global] Instance M_bind : MBind M := fun A B k m s =>
  match m s with
  | (Returns a, s') => k a s'
  | (Raises e, s') => (Raises e, s')
  | (OutOfFuel, s') => (OutOfFuel, s')
  end.

Definition raise {A : Type} (e : exn) : M A := fun s => (Raises e, s).
Definition gets {A : Type} (f : state -> A) : M A := fun s => (Returns (f s), s).
Definition modify (f : state -> state) : M unit := fun s => (Returns tt, f s).
Definition out_of_fuel {A : Type} : M A := fun s => (OutOfFuel, s).

Definition lift {A : Type} (r : result A) : M A :=
  match r with
  | Ok a => mret a
  | Raise e => raise e
  end.

(** [try: body except Exception: handler] *)
Definition try_except {A : Type} (body : M A) (handler : M A) : M A :=
  fun s =>
    match body s with
    | (Raises _, s') => handler s'
    | other => other
    end.

(* ===================================================================== *)
(** ** The primitives [masterpassword.py] imports *)
(* ===================================================================== *)

(** [graphenebase.aes.AESCipher] and [graphenebase.bip38] are imported,
    not defined, by [masterpassword.py]; they are taken as parameters.
    - [AES_encrypt password raw e] is [AESCipher(password).encrypt(raw)];
      it may read random bytes, so it takes and returns the entropy source.
    - [AES_decrypt password enc] is [AESCipher(password).decrypt(enc)]; it
      may raise.
    - [bip38_decrypt wif master] is [format(bip38.decrypt(wif, master), "wif")]
      and [bip38_encrypt wif master] is
      [format(bip38.encrypt(str(wif), master), "encwif")]; the master key
      they receive is [None] or a string. *)
Class Primitives : Type := {
  AES_encrypt : string -> string -> entropy -> string * entropy;
  AES_decrypt : string -> string -> result string;
  bip38_decrypt : string -> option string -> result string;
  bip38_encrypt : string -> option string -> result string
}.

(* ===================================================================== *)
(** ** [masterpassword.py]: MasterPassword *)
(* ===================================================================== *)

(** [self.config_key], set once in [__init__] and never assigned again. *)
Definition config_key : string := "encrypted_master_password".

(** [MasterPassword(config)]: a config store is required; the new object
    holds no password and no master key. *)
Definition __init__ (cfg : option (StoreInterface.t string string))
    (env : gmap string string) (rnd : entropy) : result state :=
  match cfg with
  | None => Raise ValueError
  | Some c => Ok (State c None None env rnd)
  end.

(** The test
    [self.config_key in self.config and self.config[self.config_key]],
    written three times in the source. *)
Definition has_encrypted_master (s : state) : bool :=
  StoreInterface.__contains__ (config s) config_key &&
  Str.truthy_opt (StoreInterface.__getitem__ (config s) config_key).

(** [os.urandom(n)] on the state's entropy source. *)
Definition os_urandom (n : nat) : M (list byte) := fun s =>
  let r := urandom n (random s) in (Returns (fst r), set_random (snd r) s).

(** [checksum, encrypted_master = v.split("$")]: [v] must be a string
    with exactly one dollar sign. *)
Definition split_entry (v : option string) : result (string * string) :=
  match v with
  | None => Raise AttributeError
  | Some entry =>
      match Str.split Str.dollar entry with
      | [checksum; encrypted_master] => Ok (checksum, encrypted_master)
      | _ => Raise ValueError
      end
  end.

(** ["{}${}".format(checksum, encrypted)] *)
Definition format_entry (checksum encrypted : string) : string :=
  checksum +:+ "$" +:+ encrypted.

(** [AESCipher(password)] hashes the password into a key, so [password]
    must be a string. *)
Definition AESCipher (pw : option string) : result string :=
  match pw with
  | Some p => Ok p
  | None => Raise TypeError
  end.

(** [derive_checksum] applied to an attribute that may hold [None]:
    [bytes(None, "ascii")] is a [TypeError]. *)
Definition derive_checksum_of (v : option string) : result string :=
  match v with
  | Some s => derive_checksum s
  | None => Raise TypeError
  end.

Section MasterPassword.
Context `{Primitives}.

(** [masterkey], a property *)
Definition masterkey : M (option string) := gets decrypted_master.

Definition has_masterpassword : M bool :=
  gets (fun s => StoreInterface.__contains__ (config s) config_key).

Definition lock : M unit :=
  modify (set_password None);;
  modify (set_decrypted_master None).

Definition raise_wrong_master_password_exception : M unit :=
  modify (set_password None);;
  raise WrongMasterPasswordException.

Definition decrypt_encrypted_master : M unit :=
  pw ← gets password;
  aes ← lift (AESCipher pw);
  entry ← gets (fun s => StoreInterface.__getitem__ (config s) config_key);
  parts ← lift (split_entry entry);
  try_except
    (decrypted ← lift (AES_decrypt aes (snd parts));
     checksum ← lift (derive_checksum decrypted);
     (if negb (String.eqb (fst parts) checksum)
      then raise_wrong_master_password_exception
      else mret tt);;
     modify (set_decrypted_master (Some decrypted)))
    raise_wrong_master_password_exception.

Section Calls.
(** [unlocked] and [unlock] call each other ([unlocked] tries the
    password of the environment, [unlock] reaches [unlocked] through
    [new_master], [save_encrypted_master] and [get_encrypted_master]).
    The methods below are written over the [unlocked] they call. *)
Variable unlocked : M bool.

Definition locked : M bool :=
  u ← unlocked;
  mret (negb u).

Definition get_encrypted_master : M string :=
  u ← unlocked;
  if negb u then raise WalletLocked
  else
    pw ← gets password;
    aes ← lift (AESCipher pw);
    master ← masterkey;
    checksum ← lift (derive_checksum_of master);
    raw ← (match master with
           | Some m => mret m
           | None => raise TypeError
           end);
    e ← gets random;
    let (encrypted, e') := AES_encrypt aes raw e in
    modify (set_random e');;
    mret (format_entry checksum encrypted).

Definition save_encrypted_master : M unit :=
  v ← get_encrypted_master;
  modify (fun s =>
    set_config (StoreInterface.__setitem__ config_key v (config s)) s).

Definition new_master (pw : string) : M (option string) :=
  present ← gets has_encrypted_master;
  if (present : bool)
  then raise (Exception "Storage already has a masterpassword!")
  else
    bs ← os_urandom 32;
    fresh ← lift (decode_ascii (Hex.hexlify bs));
    modify (set_decrypted_master (Some fresh));;
    modify (set_password (Some pw));;
    save_encrypted_master;;
    masterkey.

Definition unlock (pw : string) : M unit :=
  modify (set_password (Some pw));;
  present ← gets has_encrypted_master;
  if (present : bool) then decrypt_encrypted_master
  else (new_master pw;; mret tt).

(** The body of [unlocked]. [os.environ.get("UNLOCK")] is read once
    here: it is the value the test just found to be set and not
    empty. *)
Definition unlocked_body : M bool :=
  pw ← gets password;
  match pw with
  | Some p => mret (Str.truthy p)
  | None =>
      env ← gets environ;
      present ← gets has_encrypted_master;
      match env !! "UNLOCK" with
      | Some v =>
          if Str.truthy v && present then
            unlock v;;
            pw' ← gets password;
            mret (Str.truthy_opt pw')
          else mret false
      | None => mret false
      end
  end.

Definition change_password (new_password : string) : M unit :=
  u ← unlocked;
  if negb u then raise WalletLocked
  else
    modify (set_password (Some new_password));;
    save_encrypted_master.

Definition decrypt (wif : string) : M string :=
  u ← unlocked;
  if negb u then raise WalletLocked
  else
    master ← masterkey;
    lift (bip38_decrypt wif master).

Definition encrypt (wif : string) : M string :=
  u ← unlocked;
  if negb u then raise WalletLocked
  else
    master ← masterkey;
    lift (bip38_encrypt wif master).
End Calls.

(** [unlocked], with a bound on how deep its calls to itself may nest. *)
Fixpoint unlocked (fuel : nat) : M bool :=
  match fuel with
  | O => out_of_fuel
  | S fuel' => unlocked_body (unlocked fuel')
  end.
End MasterPassword.

(* ===================================================================== *)
(** ** A small instance of the primitives, to run the methods *)
(* ===================================================================== *)

(** The ciphertext is [hex(iv).hex(password).hex(raw)]: decryption gives
    the text back under the same password and raises under any other.
    It has the shape of the real cipher's contract (it reads random
    bytes, its output is printable and has no dollar sign, a wrong
    password fails) and none of its secrecy. *)
Module ToyCipher.

Definition hex (s : string) : string :=
  string_of_list_byte (Hex.hexlify (list_byte_of_string s)).

Definition unhex (s : string) : option string :=
  match Hex.unhexlify (list_byte_of_string s) with
  | Some bs => Some (string_of_list_byte bs)
  | None => None
  end.

Definition dot : ascii := "."%char.

Definition encrypt (pw raw : string) (e : entropy) : string * entropy :=
  let (iv, e') := urandom 16 e in
  (string_of_list_byte (Hex.hexlify iv) +:+ "." +:+ hex pw +:+ "." +:+ hex raw, e').

Definition decrypt (pw enc : string) : result string :=
  match Str.split dot enc with
  | [_; key; body] =>
      if String.eqb key (hex pw) then
        match unhex body with
        | Some raw => Ok raw
        | None => Raise (ExternalError "binascii.Error")
        end
      else Raise (ExternalError "ValueError")
  | _ => Raise (ExternalError "ValueError")
  end.

(** Key wrapping in the same style, under the master key. *)
Definition wrap (wif : string) (master : option string) : result string :=
  match master with
  | Some m => Ok (hex m +:+ "." +:+ hex wif)
  | None => Raise TypeError
  end.

Definition unwrap (wif : string) (master : option string) : result string :=
  match master, Str.split dot wif with
  | Some m, [key; body] =>
      if String.eqb key (hex m) then
        match unhex body with
        | Some raw => Ok raw
        | None => Raise (ExternalError "binascii.Error")
        end
      else Raise (ExternalError "ValueError")
  | Some _, _ => Raise (ExternalError "ValueError")
  | None, _ => Raise TypeError
  end.

Definition primitives : Primitives := {|
  AES_encrypt := encrypt;
  AES_decrypt := decrypt;
  bip38_decrypt := unwrap;
  bip38_encrypt := wrap
|}.

(** The same cipher with a dollar sign put before the ciphertext: it still
    decrypts what it encrypted, but its output is not fit for the entry
    format [checksum$ciphertext]. *)
Definition encrypt_dollar (pw raw : string) (e : entropy) : string * entropy :=
  let r := encrypt pw raw e in ("$" +:+ fst r, snd r).

Definition decrypt_dollar (pw enc : string) : result string :=
  match enc with
  | String c rest =>
      if Ascii.eqb c Str.dollar then decrypt pw rest
      else Raise (ExternalError "ValueError")
  | EmptyString => Raise (ExternalError "ValueError")
  end.

Definition dollar_primitives : Primitives := {|
  AES_encrypt := encrypt_dollar;
  AES_decrypt := decrypt_dollar;
  bip38_decrypt := unwrap;
  bip38_encrypt := wrap
|}.

(** The same cipher with a decryption that, under another password, does
    not fail but gives a wrong text, as a block cipher does. The wrong
    text is one whose checksum is [6c86], the checksum of the master key
    the runs below generate: the checksum has 16 bits, and such texts
    are found by trying. *)
Definition collision : string := "garbled85445".

Definition garble (raw : string) : string :=
  if String.eqb raw collision then "" else collision.

Definition decrypt_colliding (pw enc : string) : result string :=
  match Str.split dot enc with
  | [_; key; body] =>
      match unhex body with
      | Some raw => if String.eqb key (hex pw) then Ok raw else Ok (garble raw)
      | None => Raise (ExternalError "binascii.Error")
      end
  | _ => Raise (ExternalError "ValueError")
  end.

Definition colliding_primitives : Primitives := {|
  AES_encrypt := encrypt;
  AES_decrypt := decrypt_colliding;
  bip38_decrypt := unwrap;
  bip38_encrypt := wrap
|}.

(** The same cipher made blind to the password: it still decrypts what it
    encrypted, under any password. *)
Definition blind_primitives : Primitives := {|
  AES_encrypt := fun _ raw e => encrypt "" raw e;
  AES_decrypt := fun _ enc => decrypt "" enc;
  bip38_decrypt := unwrap;
  bip38_encrypt := wrap
|}.

End ToyCipher.

(** An entropy source whose [i]-th byte is [i] modulo 256. *)
Definition counting_tape : entropy :=
  Entropy (fun i => SHA256.byte_of_N (N.of_nat i)) 0.

(** A new manager over an empty config store, [UNLOCK] not set. *)
Definition fresh_state : state :=
  State StoreInterface.empty None None ∅ counting_tape.

(** Run a method and keep the state it leaves, whatever the outcome. *)
Definition after {A : Type} (m : M A) (s : state) : state := snd (m s).


(* ===================================================================== *)
(** ** Predicates on strings used in the statements *)
(* ===================================================================== *)

Definition hex_char (c : ascii) : bool := Hex.is_hexdigit (byte_of_ascii c).
Definition is_hex (s : string) : bool := Str.all_chars hex_char s.

(** [lacks sep s]: the character [sep] does not occur in [s]. *)
Definition lacks (sep : ascii) (s : string) : bool :=
  Str.all_chars (fun c => negb (Ascii.eqb c sep)) s.

(** The string [new_master] makes of the next 32 random bytes. *)
Definition fresh_master (s : state) : string :=
  string_of_list_byte (Hex.hexlify (fst (urandom 32 (random s)))).

(** The state a successful first [unlock pw] leaves: a new master key,
    its entry in the config store, both held with the password. *)
Definition initialised `{Primitives} (pw : string) (s : state) : state :=
  let fresh := fresh_master s in
  let checksum := Str.take 4 (SHA256.hexdigest (list_byte_of_string fresh)) in
  let r := AES_encrypt pw fresh (snd (urandom 32 (random s))) in
  State (StoreInterface.__setitem__ config_key
           (format_entry checksum (fst r)) (config s))
        (Some pw) (Some fresh) (environ s) (snd r).

(* ===================================================================== *)
(** ** What the methods need of the cipher *)
(* ===================================================================== *)

(** Decryption under the password of the encryption gives the text back. *)
Definition aes_round_trip `{Primitives} : Prop :=
  forall pw raw e, AES_decrypt pw (fst (AES_encrypt pw raw e)) = Ok raw.

(** A ciphertext has no dollar sign (the real one is base64 text), so the
    saved entry splits into its two fields again. *)
Definition aes_dollar_free `{Primitives} : Prop :=
  forall pw raw e, lacks Str.dollar (fst (AES_encrypt pw raw e)) = true.

(** Decryption under another password fails, or gives another text than
    the one encrypted. Nothing is said of the checksum of that text. *)
Definition aes_fails_or_garbles `{Primitives} : Prop :=
  forall p q raw e d,
    p <> q ->
    AES_decrypt q (fst (AES_encrypt p raw e)) = Ok d ->
    d <> raw.

(** The ciphertext a first [unlock pw] saves in the entry. *)
Definition first_ciphertext `{Primitives} (pw : string) (s : state) : string :=
  fst (AES_encrypt pw (fresh_master s) (snd (urandom 32 (random s)))).

(* ===================================================================== *)
(** ** The properties, as statements about a run *)
(* ===================================================================== *)

Section Statements.
Context `{Primitives}.

(** [unlock pw], [lock()], [unlock pw] all return, and the master key
    held at the end is the one the first [unlock] generated. *)
Definition master_round_trip (fuel : nat) (pw : string) (s : state) : Prop :=
  exists s1 s3,
    unlock (unlocked fuel) pw s = (Returns tt, s1) /\
    decrypted_master s1 = Some (fresh_master s) /\
    (lock;; unlock (unlocked fuel) pw) s1 = (Returns tt, s3) /\
    decrypted_master s3 = Some (fresh_master s).

(** [unlock p] returns; after [lock()], [unlock q] raises
    [WrongMasterPasswordException], holds no password and no master key,
    leaves the entry in place, and [locked()] answers [True] when the
    environment offers no password. *)
Definition wrong_password_rejected (fuel : nat) (p q : string) (s : state)
  : Prop :=
  exists s1 s3,
    unlock (unlocked fuel) p s = (Returns tt, s1) /\
    (lock;; unlock (unlocked fuel) q) s1
      = (Raises WrongMasterPasswordException, s3) /\
    password s3 = None /\
    decrypted_master s3 = None /\
    config s3 = config s1 /\
    has_encrypted_master s3 = true /\
    (environ s !! "UNLOCK" = None ->
     locked (unlocked fuel) s3 = (Returns true, s3)).

(** From a state unlocked under [p]: [change_password q], [lock()],
    [unlock q] return and give the same master key, and the [unlock p]
    that follows raises [WrongMasterPasswordException]. *)
Definition password_change_holds (fuel : nat) (p q : string) (s1 : state)
  : Prop :=
  exists m s2 s4 s5,
    decrypted_master s1 = Some m /\
    change_password (unlocked fuel) q s1 = (Returns tt, s2) /\
    (lock;; unlock (unlocked fuel) q) s2 = (Returns tt, s4) /\
    decrypted_master s4 = Some m /\
    unlock (unlocked fuel) p s4 = (Raises WrongMasterPasswordException, s5).

(** [unlocked()] returns a boolean; it does not raise. *)
Definition unlocked_is_silent (fuel : nat) (s : state) : Prop :=
  exists b s', unlocked fuel s = (Returns b, s').
End Statements.

(** [derive_checksum s] returns the first four characters of the
    hexadecimal digest of the ASCII bytes of [s]. *)
Definition checksum_is_digest_prefix (s : string) : Prop :=
  exists c,
    derive_checksum s = Ok c /\
    c = Str.take 4 (SHA256.hexdigest (list_byte_of_string s)) /\
    String.length c = 4 /\
    is_hex c = true.

(* ===================================================================== *)
(** ** Concrete states, under the small cipher *)
(* ===================================================================== *)

Section RunStates.
#[local] Existing Instance ToyCipher.primitives.

(** After [unlock("hunter2")] on a new manager. *)
Definition unlocked_state : state :=
  after (unlock (unlocked 1) "hunter2") fresh_state.

(** Then [lock()]. *)
Definition locked_state : state := after lock unlocked_state.

(** The locked manager, in a process whose [UNLOCK] is a wrong password. *)
Definition locked_state_wrong_env : state :=
  State (config locked_state) None None {["UNLOCK" := "wrong"]}
        (random locked_state).

(** The locked manager when [unlock("wrong")] has just set the password. *)
Definition trying_wrong_state : state :=
  set_password (Some "wrong") locked_state.

(** The two fields of the saved entry. *)
Definition saved_checksum : string :=
  match split_entry (StoreInterface.__getitem__ (config locked_state) config_key) with
  | Ok parts => fst parts
  | Raise _ => ""
  end.

Definition saved_ciphertext : string :=
  match split_entry (StoreInterface.__getitem__ (config locked_state) config_key) with
  | Ok parts => snd parts
  | Raise _ => ""
  end.

(** After [unlock("hunter2")] on a new manager, under the cipher that
    garbles into a text of the same checksum. *)
Definition colliding_unlocked_state : state :=
  after (@unlock ToyCipher.colliding_primitives
           (@unlocked ToyCipher.colliding_primitives 1) "hunter2") fresh_state.

(** A string of one non-ASCII character, U+00E9. *)
Definition e_acute : string := String (ascii_of_nat 233) "".
End RunStates.

(* ===================================================================== *)
(** ** The rest of [masterpassword.py] and [interfaces.py] *)
(* ===================================================================== *)

(** The legacy names of the methods. *)
Section Legacy.
Context `{Primitives}.
Variable unlocked : M bool.

Definition changePassword (new_password : string) : M unit :=
  change_password unlocked new_password.
Definition getEncryptedMaster : M string := get_encrypted_master unlocked.
Definition deriveChecksum (s : string) : result string := derive_checksum s.
Definition newMaster (pw : string) : M (option string) := new_master unlocked pw.
Definition saveEncrytpedMaster : M unit := save_encrypted_master unlocked.
Definition raiseWrongMasterPasswordException : M unit :=
  raise_wrong_master_password_exception.
Definition decryptEncryptedMaster : M unit := decrypt_encrypted_master.
End Legacy.

(** [KeyInterface]: the methods added to the store all have the body
    [pass], or return [False]. *)
Module KeyInterface.
Section Keys.
Context {K V : Type} `{Countable K}.
Implicit Types st : StoreInterface.t K V.

Definition getPublicKeys st : option (list K) := None.
Definition getPrivateKeyForPublicKey st (pub : K) : option V := None.
Definition add (wif : V) (pub : option K) st : StoreInterface.t K V := st.
Definition delete (pub : K) st : StoreInterface.t K V := st.
Definition is_encrypted st : bool := false.
Definition unlock (password : string) st : StoreInterface.t K V := st.
Definition locked st : bool := false.
Definition lock st : StoreInterface.t K V := st.
End Keys.
End KeyInterface.

(** The classes of [interfaces.py] and their objects. [defaults = {}] is
    evaluated once, in the body of [StoreInterface]; [KeyInterface] and
    [ConfigInterface] do not assign [defaults], so [cls.defaults] is that
    one dict for each of the three classes, and [setdefault] writes into
    it. *)
Module StoreClasses.
Section Program.
Context {K V : Type} `{Countable K}.

Inductive class : Type :=
| class_StoreInterface
| class_KeyInterface
| class_ConfigInterface.

Record program : Type := Program {
  shared_defaults : gmap K V;                (* StoreInterface.defaults *)
  objects : gmap nat (class * gmap K V)      (* the stores created so far *)
}.

(** [cls.setdefault(key, value)], for any of the classes. *)
Definition setdefault (cls : class) (key : K) (value : V) (p : program)
  : program :=
  Program (<[key := value]> (shared_defaults p)) (objects p).

(** [cls()]: a new, empty store; its name is the next free number. *)
Definition new (cls : class) (p : program) : nat * program :=
  let name := fresh (dom (objects p)) in
  (name, Program (shared_defaults p) (<[name := (cls, ∅)]> (objects p))).

(** The store an object is, as the methods of [StoreInterface] see it. *)
Definition store (p : program) (name : nat) : option (StoreInterface.t K V) :=
  match objects p !! name with
  | Some (_, held) => Some (StoreInterface.Store (shared_defaults p) held)
  | None => None
  end.

(** [obj[key] = value] *)
Definition setitem (name : nat) (key : K) (value : V) (p : program)
  : program :=
  match objects p !! name with
  | Some (cls, held) =>
      Program (shared_defaults p)
              (<[name := (cls, <[key := value]> held)]> (objects p))
  | None => p
  end.
End Program.
Arguments program K V {_ _}.
End StoreClasses.

Section MoreRunStates.
#[local] Existing Instance ToyCipher.primitives.

(** A new manager in a process whose [UNLOCK] is the password to come. *)
Definition fresh_state_with_env : state :=
  State StoreInterface.empty None None {["UNLOCK" := "hunter2"]} counting_tape.

(** A new manager over a config store whose entry has no dollar sign. *)
Definition malformed_entry_state : state :=
  State (StoreInterface.__setitem__ config_key "nodollarhere"
           StoreInterface.empty)
        None None ∅ counting_tape.

(** A new manager over a config store whose entry is the empty string. *)
Definition blank_entry_state : state :=
  State (StoreInterface.__setitem__ config_key "" StoreInterface.empty)
        None None ∅ counting_tape.

(** What [encrypt] gives for a key while unlocked. *)
Definition wrapped_wif : string :=
  match fst (encrypt (unlocked 1) "5Kwif" unlocked_state) with
  | Returns wrapped => wrapped
  | _ => ""
  end.

(** A [ConfigInterface] store holding a key, and a [KeyInterface] store. *)
Definition two_stores : StoreClasses.program string string :=
  StoreClasses.setitem 0 "node" "wss://example"
    (snd (StoreClasses.new StoreClasses.class_KeyInterface
       (snd (StoreClasses.new StoreClasses.class_ConfigInterface
          (StoreClasses.Program ∅ ∅))))).
End MoreRunStates.

(* ===================================================================== *)
(** ** Facts about the hexadecimal rendering *)
(* ===================================================================== *)

Lemma hexlify_cons b bs :
  Hex.hexlify (b :: bs) =
  Hex.digit (Byte.to_N b / 16) :: Hex.digit (Byte.to_N b mod 16) :: Hex.hexlify bs.
Proof. reflexivity. Qed.

Lemma unhexlify_digits b rest :
  Hex.unhexlify
    (Hex.digit (Byte.to_N b / 16) :: Hex.digit (Byte.to_N b mod 16) :: rest) =
  match Hex.unhexlify rest with
  | Some bs => Some (b :: bs)
  | None => None
  end.
Proof.
  change (match Hex.digit_value (Hex.digit (Byte.to_N b / 16)),
                Hex.digit_value (Hex.digit (Byte.to_N b mod 16)),
                Hex.unhexlify rest with
          | Some h, Some l, Some bs =>
              match Byte.of_N (16 * h + l) with
              | Some b' => Some (b' :: bs)
              | None => None
              end
          | _, _, _ => None
          end =
          match Hex.unhexlify rest with
          | Some bs => Some (b :: bs)
          | None => None
          end).
  destruct (Hex.unhexlify rest); destruct b; reflexivity.
Qed.

Lemma unhexlify_hexlify bs : Hex.unhexlify (Hex.hexlify bs) = Some bs.
Proof.
  induction bs as [|b bs IH]; [reflexivity|].
  rewrite hexlify_cons, unhexlify_digits, IH. reflexivity.
Qed.

Lemma digits_are_hex b :
  Hex.is_hexdigit (Hex.digit (Byte.to_N b / 16)) &&
  Hex.is_hexdigit (Hex.digit (Byte.to_N b mod 16)) = true.
Proof. destruct b; reflexivity. Qed.

Lemma hexlify_is_hex bs : forallb Hex.is_hexdigit (Hex.hexlify bs) = true.
Proof.
  induction bs as [|b bs IH]; [reflexivity|].
  rewrite hexlify_cons. cbn [forallb]. rewrite andb_assoc, digits_are_hex, IH.
  reflexivity.
Qed.

Lemma hexlify_length bs : length (Hex.hexlify bs) = 2 * length bs.
Proof.
  induction bs as [|b bs IH]; [reflexivity|].
  rewrite hexlify_cons. cbn [length]. rewrite IH. lia.
Qed.

Lemma hexdigit_facts b :
  Hex.is_hexdigit b = true ->
  (Byte.to_N b <? 128)%N = true /\
  Str.is_ascii_char (ascii_of_byte b) = true /\
  negb (Ascii.eqb (ascii_of_byte b) Str.dollar) = true /\
  negb (Ascii.eqb (ascii_of_byte b) "."%char) = true.
Proof.
  intros Hb. destruct b; vm_compute in Hb; try discriminate Hb;
    vm_compute; auto.
Qed.

(* ===================================================================== *)
(** ** Facts about strings *)
(* ===================================================================== *)

Lemma all_chars_string_of_list_byte p bs :
  Str.all_chars p (string_of_list_byte bs) =
  forallb (fun b => p (ascii_of_byte b)) bs.
Proof.
  induction bs as [|b bs IH]; [reflexivity|].
  cbn. unfold string_of_list_byte in IH. rewrite IH. reflexivity.
Qed.

Lemma all_chars_impl (p q : ascii -> bool) s :
  (forall c, p c = true -> q c = true) ->
  Str.all_chars p s = true -> Str.all_chars q s = true.
Proof.
  intros Hpq. induction s as [|c s IH]; [reflexivity|].
  cbn. rewrite !andb_true_iff. intros [Hc Hs]. auto.
Qed.

Lemma all_chars_append p a b :
  Str.all_chars p (a +:+ b) = Str.all_chars p a && Str.all_chars p b.
Proof.
  induction a as [|c a IH]; [reflexivity|].
  simpl. rewrite IH, andb_assoc. reflexivity.
Qed.

Lemma all_chars_take p n s :
  Str.all_chars p s = true -> Str.all_chars p (Str.take n s) = true.
Proof.
  revert s. induction n as [|n IH]; intros [|c s]; try reflexivity.
  cbn. rewrite !andb_true_iff. intros [Hc Hs]. auto.
Qed.

Lemma take_length n s : String.length (Str.take n s) = Nat.min n (String.length s).
Proof.
  revert s. induction n as [|n IH]; intros [|c s]; try reflexivity.
  cbn. rewrite IH. reflexivity.
Qed.

Lemma string_of_list_byte_length bs :
  String.length (string_of_list_byte bs) = length bs.
Proof.
  induction bs as [|b bs IH]; [reflexivity|].
  cbn. unfold string_of_list_byte in IH. rewrite IH. reflexivity.
Qed.

Lemma string_of_hexlify_is_hex bs :
  is_hex (string_of_list_byte (Hex.hexlify bs)) = true.
Proof.
  unfold is_hex. rewrite all_chars_string_of_list_byte.
  apply forallb_forall. intros b Hb.
  unfold hex_char. rewrite byte_of_ascii_of_byte.
  pose proof (hexlify_is_hex bs) as Hall.
  rewrite forallb_forall in Hall. auto.
Qed.

Lemma is_hex_facts s :
  is_hex s = true ->
  Str.is_ascii s = true /\ lacks Str.dollar s = true /\ lacks "."%char s = true.
Proof.
  intros Hs. split; [|split];
    (eapply all_chars_impl; [|exact Hs]); intros c Hc;
    unfold hex_char in Hc; apply hexdigit_facts in Hc;
    rewrite ascii_of_byte_of_ascii in Hc; tauto.
Qed.

Lemma split_lacks sep s : lacks sep s = true -> Str.split sep s = [s].
Proof.
  induction s as [|c s IH]; [reflexivity|].
  unfold lacks. cbn [Str.split Str.all_chars].
  rewrite andb_true_iff, negb_true_iff. intros [Hc Hs].
  rewrite Hc, (IH Hs). reflexivity.
Qed.

Lemma split_append sep a b :
  lacks sep a = true ->
  Str.split sep (a +:+ String sep b) = a :: Str.split sep b.
Proof.
  induction a as [|c a IH].
  - intros _. simpl. rewrite Ascii.eqb_refl. reflexivity.
  - unfold lacks. simpl.
    rewrite andb_true_iff, negb_true_iff. intros [Hc Ha].
    rewrite Hc, (IH Ha). reflexivity.
Qed.

Lemma Ok_inj {A : Type} (a b : A) : Ok a = Ok b -> a = b.
Proof. intros E. injection E. auto. Qed.

Lemma truthy_nonempty s : Str.truthy s = true <-> s <> "".
Proof. destruct s; cbn; split; congruence. Qed.

(* ===================================================================== *)
(** ** Facts about the checksum *)
(* ===================================================================== *)

Lemma digest_length msg : length (SHA256.digest msg) = 32.
Proof. unfold SHA256.digest. generalize (SHA256.hash_words msg). reflexivity. Qed.

Lemma hexdigest_length msg : String.length (SHA256.hexdigest msg) = 64.
Proof.
  unfold SHA256.hexdigest.
  rewrite string_of_list_byte_length, hexlify_length, digest_length.
  reflexivity.
Qed.

Lemma hexdigest_is_hex msg : is_hex (SHA256.hexdigest msg) = true.
Proof. apply string_of_hexlify_is_hex. Qed.

Lemma derive_checksum_ascii s :
  Str.is_ascii s = true ->
  derive_checksum s = Ok (Str.take 4 (SHA256.hexdigest (list_byte_of_string s))).
Proof. intros Hs. unfold derive_checksum, encode_ascii. rewrite Hs. reflexivity. Qed.

Lemma derive_checksum_not_ascii s :
  Str.is_ascii s = false -> derive_checksum s = Raise UnicodeEncodeError.
Proof. intros Hs. unfold derive_checksum, encode_ascii. rewrite Hs. reflexivity. Qed.

Lemma derive_checksum_inv s c :
  derive_checksum s = Ok c ->
  Str.is_ascii s = true /\
  c = Str.take 4 (SHA256.hexdigest (list_byte_of_string s)).
Proof.
  unfold derive_checksum, encode_ascii, result_bind.
  destruct (Str.is_ascii s); intros Hc; [|discriminate].
  apply Ok_inj in Hc. auto.
Qed.

Lemma checksum_shape s c :
  derive_checksum s = Ok c ->
  String.length c = 4 /\ is_hex c = true /\ lacks Str.dollar c = true.
Proof.
  intros Hc. apply derive_checksum_inv in Hc as [_ ->].
  assert (Hhex : is_hex (Str.take 4 (SHA256.hexdigest (list_byte_of_string s))) = true)
    by (apply all_chars_take, hexdigest_is_hex).
  split; [|split].
  - rewrite take_length, hexdigest_length. reflexivity.
  - exact Hhex.
  - apply is_hex_facts, Hhex.
Qed.

(** The string [new_master] makes of 32 random bytes. *)
Lemma decode_hexlify bs :
  decode_ascii (Hex.hexlify bs) = Ok (string_of_list_byte (Hex.hexlify bs)).
Proof.
  unfold decode_ascii.
  assert (H : forallb (fun b => (Byte.to_N b <? 128)%N) (Hex.hexlify bs) = true).
  { apply forallb_forall. intros b Hb.
    pose proof (hexlify_is_hex bs) as Hall.
    rewrite forallb_forall in Hall. apply hexdigit_facts. auto. }
  rewrite H. reflexivity.
Qed.

Lemma split_format_entry checksum encrypted :
  lacks Str.dollar checksum = true ->
  lacks Str.dollar encrypted = true ->
  split_entry (Some (format_entry checksum encrypted)) = Ok (checksum, encrypted).
Proof.
  intros Hc He. unfold split_entry, format_entry.
  change ("$" +:+ encrypted) with (String Str.dollar encrypted).
  rewrite split_append, split_lacks by assumption. reflexivity.
Qed.

(* ===================================================================== *)
(** ** Facts about the store *)
(* ===================================================================== *)

Section StoreFacts.
Context {K V : Type} `{Countable K}.
Implicit Types (st : StoreInterface.t K V) (key : K) (value : V).

Lemma contains_spec st key :
  StoreInterface.__contains__ st key = true <->
  is_Some (StoreInterface.items st !! key).
Proof. unfold StoreInterface.__contains__. apply bool_decide_eq_true. Qed.

Lemma getitem_lookup st key :
  StoreInterface.__getitem__ st key =
  match StoreInterface.items st !! key with
  | Some v => Some v
  | None => StoreInterface.defaults st !! key
  end.
Proof.
  unfold StoreInterface.__getitem__, StoreInterface.__contains__.
  destruct (StoreInterface.items st !! key) as [v|] eqn:Hi.
  - rewrite bool_decide_eq_true_2 by eauto. reflexivity.
  - rewrite bool_decide_eq_false_2 by (intros [? ?]; discriminate).
    destruct (StoreInterface.defaults st !! key) as [d|] eqn:Hd.
    + rewrite bool_decide_eq_true_2 by eauto. reflexivity.
    + rewrite bool_decide_eq_false_2 by (intros [? ?]; discriminate).
      reflexivity.
Qed.

Lemma contains_setitem st key value :
  StoreInterface.__contains__ (StoreInterface.__setitem__ key value st) key
  = true.
Proof.
  apply contains_spec. cbn. rewrite lookup_insert_eq. eauto.
Qed.

Lemma getitem_setitem st key value :
  StoreInterface.__getitem__ (StoreInterface.__setitem__ key value st) key
  = Some value.
Proof. rewrite getitem_lookup. cbn. rewrite lookup_insert_eq. reflexivity. Qed.

Lemma getitem_setdefault st key value :
  StoreInterface.__getitem__ (StoreInterface.setdefault key value st) key =
  match StoreInterface.items st !! key with
  | Some v => Some v
  | None => Some value
  end.
Proof. rewrite !getitem_lookup. cbn. rewrite lookup_insert_eq. reflexivity. Qed.
End StoreFacts.

(* ===================================================================== *)
(** ** Facts about the methods *)
(* ===================================================================== *)

Arguments derive_checksum : simpl never.
Arguments StoreInterface.__getitem__ : simpl never.
Arguments StoreInterface.__contains__ : simpl never.
Arguments StoreInterface.__setitem__ : simpl never.
Arguments unlocked : simpl never.
Arguments has_encrypted_master : simpl never.
Arguments urandom : simpl never.
Arguments Hex.hexlify : simpl never.
Arguments string_of_list_byte : simpl never.
Arguments list_byte_of_string : simpl never.
Arguments Str.take : simpl never.
Arguments format_entry : simpl never.

(** Unfold the monad's plumbing and compute. *)
Ltac run :=
  unfold mbind, M_bind, mret, M_ret, gets, modify, raise, lift, try_except,
    os_urandom, masterkey;
  cbn.

Lemma truthy_format_entry c e : Str.truthy (format_entry c e) = true.
Proof. destruct c; reflexivity. Qed.

Lemma fresh_master_is_hex s : is_hex (fresh_master s) = true.
Proof. apply string_of_hexlify_is_hex. Qed.

Lemma fresh_master_checksum s :
  derive_checksum (fresh_master s) =
  Ok (Str.take 4 (SHA256.hexdigest (list_byte_of_string (fresh_master s)))).
Proof. apply derive_checksum_ascii, is_hex_facts, fresh_master_is_hex. Qed.

Lemma has_encrypted_master_set_password p s :
  has_encrypted_master (set_password p s) = has_encrypted_master s.
Proof. reflexivity. Qed.

Lemma has_encrypted_master_set_decrypted_master m s :
  has_encrypted_master (set_decrypted_master m s) = has_encrypted_master s.
Proof. reflexivity. Qed.

Lemma has_encrypted_master_set_random e s :
  has_encrypted_master (set_random e s) = has_encrypted_master s.
Proof. reflexivity. Qed.

Lemma has_encrypted_master_saved v s :
  has_encrypted_master
    (set_config (StoreInterface.__setitem__ config_key v (config s)) s)
  = Str.truthy v.
Proof.
  unfold has_encrypted_master. cbn [config set_config].
  rewrite contains_setitem, getitem_setitem. reflexivity.
Qed.

Section MethodFacts.
Context `{Primitives}.

Lemma lock_spec s :
  lock s = (Returns tt, State (config s) None None (environ s) (random s)).
Proof. reflexivity. Qed.

Lemma unlocked_S fuel : unlocked (S fuel) = unlocked_body (unlocked fuel).
Proof. reflexivity. Qed.

Lemma unlocked_held fuel s p :
  password s = Some p ->
  unlocked (S fuel) s = (Returns (Str.truthy p), s).
Proof.
  intros Hp. rewrite !unlocked_S. unfold unlocked_body. run. rewrite Hp.
  reflexivity.
Qed.

Lemma decrypt_encrypted_master_ok s k c e d :
  password s = Some k ->
  split_entry (StoreInterface.__getitem__ (config s) config_key) = Ok (c, e) ->
  AES_decrypt k e = Ok d ->
  derive_checksum d = Ok c ->
  decrypt_encrypted_master s = (Returns tt, set_decrypted_master (Some d) s).
Proof.
  intros Hp Hs Hd Hc. unfold decrypt_encrypted_master. run.
  rewrite Hp. cbn. rewrite Hs. cbn. rewrite Hd. cbn. rewrite Hc. cbn.
  rewrite String.eqb_refl. reflexivity.
Qed.

Lemma decrypt_encrypted_master_fails s k c e :
  password s = Some k ->
  split_entry (StoreInterface.__getitem__ (config s) config_key) = Ok (c, e) ->
  (forall d, AES_decrypt k e = Ok d -> derive_checksum d <> Ok c) ->
  decrypt_encrypted_master s =
  (Raises WrongMasterPasswordException, set_password None s).
Proof.
  intros Hp Hs Hbad. unfold decrypt_encrypted_master. run.
  rewrite Hp. cbn. rewrite Hs. cbn.
  destruct (AES_decrypt k e) as [d|x]; cbn; [|reflexivity].
  specialize (Hbad d eq_refl).
  destruct (derive_checksum d) as [c'|x]; cbn; [|reflexivity].
  destruct (String.eqb_spec c c') as [->|Hne]; [congruence|reflexivity].
Qed.

Lemma split_entry_raise v x :
  split_entry v = Raise x -> x = AttributeError \/ x = ValueError.
Proof.
  unfold split_entry. destruct v as [entry|]; [|intros E; inversion E; auto].
  destruct (Str.split Str.dollar entry) as [|a [|b [|c l]]];
    intros E; inversion E; auto.
Qed.

(** What [decrypt_encrypted_master] can have done, read off its outcome. *)
Lemma decrypt_encrypted_master_inv s r s' :
  decrypt_encrypted_master s = (r, s') ->
  match r with
  | Returns _ =>
      exists k c e d,
        password s = Some k /\
        split_entry (StoreInterface.__getitem__ (config s) config_key)
          = Ok (c, e) /\
        AES_decrypt k e = Ok d /\
        derive_checksum d = Ok c /\
        s' = set_decrypted_master (Some d) s
  | Raises x =>
      decrypted_master s' = decrypted_master s /\
      config s' = config s /\
      (x = WrongMasterPasswordException -> password s' = None)
  | OutOfFuel => False
  end.
Proof.
  unfold decrypt_encrypted_master. run.
  destruct (password s) as [k|] eqn:Hp; cbn;
    [|intros E; inversion E; subst; cbn; intuition discriminate].
  destruct (split_entry _) as [[c e]|x] eqn:Hs; cbn.
  2:{ intros E; inversion E; subst; cbn.
      apply split_entry_raise in Hs. intuition congruence. }
  destruct (AES_decrypt k e) as [d|x] eqn:Hd; cbn;
    [|intros E; inversion E; subst; cbn; auto].
  destruct (derive_checksum d) as [c'|x] eqn:Hc; cbn;
    [|intros E; inversion E; subst; cbn; auto].
  destruct (String.eqb_spec c c') as [->|Hne]; cbn;
    intros E; inversion E; subst; cbn; [|auto].
  exists k, c', e, d. auto.
Qed.

Lemma unlock_existing u pw s :
  has_encrypted_master s = true ->
  unlock u pw s = decrypt_encrypted_master (set_password (Some pw) s).
Proof.
  intros Hm. unfold unlock. run.
  rewrite has_encrypted_master_set_password, Hm. reflexivity.
Qed.

(** One level of fuel is as good as any: the [unlock] that [unlocked]
    calls finds the entry that [unlocked] has just seen, and decrypts. *)
Lemma unlocked_fuel fuel s : unlocked (S fuel) s = unlocked 1 s.
Proof.
  rewrite !unlocked_S. unfold unlocked_body. run.
  destruct (password s) as [p|] eqn:Hp; [reflexivity|].
  destruct (environ s !! "UNLOCK") as [v|]; [|reflexivity].
  destruct (Str.truthy v); cbn; [|reflexivity].
  destruct (has_encrypted_master s) eqn:Hm; [|reflexivity].
  rewrite !unlock_existing by exact Hm. reflexivity.
Qed.

Lemma unlocked_no_password fuel s :
  password s = None ->
  unlocked (S fuel) s =
  match environ s !! "UNLOCK" with
  | Some v =>
      if Str.truthy v && has_encrypted_master s then
        match decrypt_encrypted_master (set_password (Some v) s) with
        | (Returns _, s') => (Returns (Str.truthy_opt (password s')), s')
        | (Raises x, s') => (Raises x, s')
        | (OutOfFuel, s') => (OutOfFuel, s')
        end
      else (Returns false, s)
  | None => (Returns false, s)
  end.
Proof.
  intros Hp. rewrite !unlocked_S. unfold unlocked_body. run. rewrite Hp.
  destruct (environ s !! "UNLOCK") as [v|]; [|reflexivity].
  destruct (Str.truthy v); cbn; [|reflexivity].
  destruct (has_encrypted_master s) eqn:Hm; [|reflexivity].
  rewrite unlock_existing by exact Hm. reflexivity.
Qed.

(** [unlocked] always ends, by returning or by raising. *)
Lemma unlocked_total fuel s : fst (unlocked (S fuel) s) <> OutOfFuel.
Proof.
  destruct (password s) as [p|] eqn:Hp.
  - rewrite (unlocked_held _ _ _ Hp). discriminate.
  - rewrite (unlocked_no_password _ _ Hp).
    destruct (environ s !! "UNLOCK") as [v|]; [|discriminate].
    destruct (Str.truthy v && has_encrypted_master s); [|discriminate].
    destruct (decrypt_encrypted_master _) as [r s'] eqn:E.
    apply decrypt_encrypted_master_inv in E.
    destruct r; cbn; [discriminate|discriminate|contradiction].
Qed.

(** A query that answers "not unlocked" has changed nothing. *)
Lemma unlocked_false fuel s s' :
  unlocked (S fuel) s = (Returns false, s') -> s' = s.
Proof.
  destruct (password s) as [p|] eqn:Hp.
  - rewrite (unlocked_held _ _ _ Hp). congruence.
  - rewrite (unlocked_no_password _ _ Hp).
    destruct (environ s !! "UNLOCK") as [v|]; [|congruence].
    destruct (Str.truthy v) eqn:Hv; cbn; [|congruence].
    destruct (has_encrypted_master s); [|congruence].
    destruct (decrypt_encrypted_master _) as [r s''] eqn:E.
    apply decrypt_encrypted_master_inv in E.
    destruct r; [|discriminate|contradiction].
    destruct E as (k & c & e & d & Hk & _ & _ & _ & ->).
    cbn. rewrite Hv. discriminate.
Qed.

Lemma get_encrypted_master_spec fuel s p m c :
  password s = Some p ->
  Str.truthy p = true ->
  decrypted_master s = Some m ->
  derive_checksum m = Ok c ->
  get_encrypted_master (unlocked (S fuel)) s =
  (Returns (format_entry c (fst (AES_encrypt p m (random s)))),
   set_random (snd (AES_encrypt p m (random s))) s).
Proof.
  intros Hp Ht Hm Hc. unfold get_encrypted_master. run.
  rewrite (unlocked_held _ _ _ Hp), Ht. cbn.
  rewrite Hp. cbn. rewrite Hm. cbn. rewrite Hc. cbn.
  destruct (AES_encrypt p m (random s)) as [ct e']. reflexivity.
Qed.

Lemma get_encrypted_master_locked fuel s p :
  password s = Some p ->
  Str.truthy p = false ->
  get_encrypted_master (unlocked (S fuel)) s = (Raises WalletLocked, s).
Proof.
  intros Hp Ht. unfold get_encrypted_master. run.
  rewrite (unlocked_held _ _ _ Hp), Ht. reflexivity.
Qed.
End MethodFacts.

Section UnlockFacts.
Context `{Primitives}.

Lemma unlock_new fuel pw s :
  has_encrypted_master s = false ->
  Str.truthy pw = true ->
  unlock (unlocked (S fuel)) pw s = (Returns tt, initialised pw s).
Proof.
  intros Hm Ht. unfold unlock, new_master, save_encrypted_master. run.
  rewrite has_encrypted_master_set_password, Hm. cbn.
  rewrite has_encrypted_master_set_password, Hm. cbn.
  rewrite decode_hexlify. cbn.
  erewrite get_encrypted_master_spec;
    [|reflexivity|exact Ht|reflexivity|apply (fresh_master_checksum s)].
  reflexivity.
Qed.

(** With the empty password [new_master] stops in [get_encrypted_master]:
    the new master key is held, nothing is saved. *)
Lemma unlock_new_empty fuel s :
  has_encrypted_master s = false ->
  unlock (unlocked (S fuel)) "" s =
  (Raises WalletLocked,
   State (config s) (Some "") (Some (fresh_master s)) (environ s)
         (snd (urandom 32 (random s)))).
Proof.
  intros Hm. unfold unlock, new_master, save_encrypted_master. run.
  rewrite has_encrypted_master_set_password, Hm. cbn.
  rewrite has_encrypted_master_set_password, Hm. cbn.
  rewrite decode_hexlify. cbn.
  erewrite get_encrypted_master_locked; [|reflexivity|reflexivity].
  reflexivity.
Qed.

(** What a successful [unlock] leaves behind. *)
Lemma unlock_returns fuel pw s s' :
  unlock (unlocked (S fuel)) pw s = (Returns tt, s') ->
  password s' = Some pw /\
  exists m c, decrypted_master s' = Some m /\ derive_checksum m = Ok c.
Proof.
  destruct (has_encrypted_master s) eqn:Hm.
  - rewrite unlock_existing by exact Hm. intros E.
    apply decrypt_encrypted_master_inv in E.
    destruct E as (k & c & e & d & Hk & _ & _ & Hc & ->).
    cbn in *. eauto.
  - destruct (Str.truthy pw) eqn:Ht.
    + rewrite unlock_new by assumption. intros E. inversion E. cbn.
      split; [reflexivity|]. eexists _, _. split; [reflexivity|].
      apply fresh_master_checksum.
    + destruct pw; [|discriminate Ht].
      rewrite unlock_new_empty by exact Hm. discriminate.
Qed.

(** An [unlock] that raises [WrongMasterPasswordException] clears the
    password and leaves [decrypted_master] as it found it. *)
Lemma unlock_wrong_keeps_master fuel pw s s' :
  unlock (unlocked (S fuel)) pw s = (Raises WrongMasterPasswordException, s') ->
  password s' = None /\ decrypted_master s' = decrypted_master s.
Proof.
  destruct (has_encrypted_master s) eqn:Hm.
  - rewrite unlock_existing by exact Hm. intros E.
    apply decrypt_encrypted_master_inv in E. cbn in E.
    destruct E as (Hd & _ & Hp). auto.
  - destruct (Str.truthy pw) eqn:Ht.
    + rewrite unlock_new by assumption. discriminate.
    + destruct pw; [|discriminate Ht].
      rewrite unlock_new_empty by exact Hm. discriminate.
Qed.

Lemma change_password_spec fuel s p q m c :
  password s = Some p ->
  Str.truthy p = true ->
  Str.truthy q = true ->
  decrypted_master s = Some m ->
  derive_checksum m = Ok c ->
  change_password (unlocked (S fuel)) q s =
  (Returns tt,
   State (StoreInterface.__setitem__ config_key
            (format_entry c (fst (AES_encrypt q m (random s)))) (config s))
         (Some q) (Some m) (environ s) (snd (AES_encrypt q m (random s)))).
Proof.
  intros Hp Htp Htq Hm Hc. unfold change_password, save_encrypted_master. run.
  rewrite (unlocked_held _ _ _ Hp), Htp. cbn.
  erewrite get_encrypted_master_spec;
    [|reflexivity|exact Htq|exact Hm|exact Hc].
  unfold set_config, set_random, set_password. cbn. rewrite Hm. reflexivity.
Qed.

(** [unlock pw] on a locked store whose entry was written for the
    master key [m] under the password [p]. *)
Lemma unlock_saved_entry u pw s m c ct :
  has_encrypted_master s = true ->
  StoreInterface.__getitem__ (config s) config_key
    = Some (format_entry c ct) ->
  derive_checksum m = Ok c ->
  lacks Str.dollar ct = true ->
  unlock u pw s =
  match AES_decrypt pw ct with
  | Ok d =>
      match derive_checksum d with
      | Ok c' =>
          if String.eqb c c'
          then (Returns tt, set_decrypted_master (Some d)
                              (set_password (Some pw) s))
          else (Raises WrongMasterPasswordException, set_password None s)
      | Raise _ => (Raises WrongMasterPasswordException, set_password None s)
      end
  | Raise _ => (Raises WrongMasterPasswordException, set_password None s)
  end.
Proof.
  intros Hm Hg Hc Hct. rewrite unlock_existing by exact Hm.
  assert (Hs : split_entry
                 (StoreInterface.__getitem__
                    (config (set_password (Some pw) s)) config_key)
               = Ok (c, ct)).
  { cbn. rewrite Hg. apply split_format_entry; [|exact Hct].
    apply (checksum_shape _ _ Hc). }
  destruct (AES_decrypt pw ct) as [d|x] eqn:Hd.
  - destruct (derive_checksum d) as [c'|x] eqn:Hc'.
    + destruct (String.eqb_spec c c') as [->|Hne].
      * eapply decrypt_encrypted_master_ok; eauto.
      * erewrite decrypt_encrypted_master_fails; eauto.
        intros d' Hd'. rewrite Hd in Hd'. apply Ok_inj in Hd'. subst d'.
        congruence.
    + erewrite decrypt_encrypted_master_fails; eauto.
      intros d' Hd'. rewrite Hd in Hd'. apply Ok_inj in Hd'. subst d'.
      congruence.
  - erewrite decrypt_encrypted_master_fails; eauto.
    intros d' Hd'. congruence.
Qed.
End UnlockFacts.

(* ===================================================================== *)
(** ** The small cipher meets these requirements *)
(* ===================================================================== *)

Section ToyCipherFacts.
#[local] Existing Instance ToyCipher.primitives.

Lemma toy_hex_is_hex s : is_hex (ToyCipher.hex s) = true.
Proof. apply string_of_hexlify_is_hex. Qed.

Lemma toy_unhex_hex s : ToyCipher.unhex (ToyCipher.hex s) = Some s.
Proof.
  unfold ToyCipher.unhex, ToyCipher.hex.
  rewrite list_byte_of_string_of_list_byte, unhexlify_hexlify.
  rewrite string_of_list_byte_of_string. reflexivity.
Qed.

Lemma toy_hex_inj s t : ToyCipher.hex s = ToyCipher.hex t -> s = t.
Proof.
  intros E. apply (f_equal ToyCipher.unhex) in E.
  rewrite !toy_unhex_hex in E. congruence.
Qed.

Lemma toy_split pw raw e :
  Str.split ToyCipher.dot (fst (ToyCipher.encrypt pw raw e)) =
  [string_of_list_byte (Hex.hexlify (fst (urandom 16 e)));
   ToyCipher.hex pw; ToyCipher.hex raw].
Proof.
  unfold ToyCipher.encrypt.
  destruct (urandom 16 e) as [iv e']. cbn [fst].
  change ("." +:+ ToyCipher.hex pw +:+ "." +:+ ToyCipher.hex raw)
    with (String ToyCipher.dot
            (ToyCipher.hex pw +:+ String ToyCipher.dot (ToyCipher.hex raw))).
  rewrite split_append by apply is_hex_facts, string_of_hexlify_is_hex.
  rewrite split_append by apply is_hex_facts, toy_hex_is_hex.
  rewrite split_lacks by apply is_hex_facts, toy_hex_is_hex.
  reflexivity.
Qed.

Lemma toy_round_trip : aes_round_trip.
Proof.
  intros pw raw e. cbn [AES_decrypt AES_encrypt ToyCipher.primitives].
  unfold ToyCipher.decrypt. rewrite toy_split, String.eqb_refl, toy_unhex_hex.
  reflexivity.
Qed.

Lemma toy_dollar_free : aes_dollar_free.
Proof.
  intros pw raw e. cbn [AES_decrypt AES_encrypt ToyCipher.primitives].
  unfold ToyCipher.encrypt. destruct (urandom 16 e) as [iv e']. cbn [fst].
  unfold lacks. rewrite !all_chars_append.
  pose proof (is_hex_facts _ (string_of_hexlify_is_hex iv)) as (_ & Hiv & _).
  pose proof (is_hex_facts _ (toy_hex_is_hex pw)) as (_ & Hpw & _).
  pose proof (is_hex_facts _ (toy_hex_is_hex raw)) as (_ & Hraw & _).
  unfold lacks in Hiv, Hpw, Hraw. rewrite Hiv, Hpw, Hraw. reflexivity.
Qed.

Lemma toy_fails_under_wrong_password p q raw e :
  p <> q ->
  ToyCipher.decrypt q (fst (ToyCipher.encrypt p raw e))
  = Raise (ExternalError "ValueError").
Proof.
  intros Hne. unfold ToyCipher.decrypt. rewrite toy_split.
  destruct (String.eqb_spec (ToyCipher.hex p) (ToyCipher.hex q)) as [E|_].
  - apply toy_hex_inj in E. contradiction.
  - reflexivity.
Qed.

Lemma colliding_round_trip : @aes_round_trip ToyCipher.colliding_primitives.
Proof.
  intros pw raw e.
  change (ToyCipher.decrypt_colliding pw (fst (ToyCipher.encrypt pw raw e))
          = Ok raw).
  unfold ToyCipher.decrypt_colliding.
  rewrite toy_split, toy_unhex_hex, String.eqb_refl. reflexivity.
Qed.

Lemma colliding_dollar_free : @aes_dollar_free ToyCipher.colliding_primitives.
Proof. intros pw raw e. apply (toy_dollar_free pw raw e). Qed.

Lemma garble_differs raw : ToyCipher.garble raw <> raw.
Proof.
  unfold ToyCipher.garble.
  destruct (String.eqb_spec raw ToyCipher.collision) as [->|Hne].
  - discriminate.
  - congruence.
Qed.

Lemma colliding_fails_or_garbles :
  @aes_fails_or_garbles ToyCipher.colliding_primitives.
Proof.
  intros p q raw e d Hne.
  change (ToyCipher.decrypt_colliding q (fst (ToyCipher.encrypt p raw e))
          = Ok d -> d <> raw).
  unfold ToyCipher.decrypt_colliding. rewrite toy_split, toy_unhex_hex.
  destruct (String.eqb_spec (ToyCipher.hex p) (ToyCipher.hex q)) as [E|_].
  - apply toy_hex_inj in E. contradiction.
  - intros E. apply Ok_inj in E. subst d. apply garble_differs.
Qed.

Lemma dollar_round_trip : @aes_round_trip ToyCipher.dollar_primitives.
Proof.
  intros pw raw e.
  change (ToyCipher.decrypt_dollar pw
            (fst (ToyCipher.encrypt_dollar pw raw e)) = Ok raw).
  unfold ToyCipher.encrypt_dollar, ToyCipher.decrypt_dollar.
  set (r := ToyCipher.encrypt pw raw e).
  change (fst ("$" +:+ fst r, snd r)) with (String Str.dollar (fst r)).
  cbv beta iota. rewrite Ascii.eqb_refl. apply toy_round_trip.
Qed.

(** With it, the second [unlock] of [unlock], [lock], [unlock] stops at
    the unpacking of [split("$")], outside the [try]. *)
Example dollar_sign_breaks_unlock :
  fst ((@unlock ToyCipher.dollar_primitives
          (@unlocked ToyCipher.dollar_primitives 1) "hunter2";;
        @lock;;
        @unlock ToyCipher.dollar_primitives
          (@unlocked ToyCipher.dollar_primitives 1) "hunter2") fresh_state)
  = Raises ValueError.
Proof. vm_compute. reflexivity. Qed.

Lemma blind_round_trip : @aes_round_trip ToyCipher.blind_primitives.
Proof. intros pw raw e. apply (toy_round_trip "" raw e). Qed.

(** With a cipher that does not look at the password, the checksum finds
    nothing wrong with a wrong password. *)
Example blind_cipher_accepts_wrong_password :
  fst ((@unlock ToyCipher.blind_primitives
          (@unlocked ToyCipher.blind_primitives 1) "hunter2";;
        @lock;;
        @unlock ToyCipher.blind_primitives
          (@unlocked ToyCipher.blind_primitives 1) "wrong") fresh_state)
  = Returns tt.
Proof. vm_compute. reflexivity. Qed.
End ToyCipherFacts.

(* ===================================================================== *)
(** ** The properties *)
(* ===================================================================== *)

Section Properties.
Context `{Primitives}.

Lemma after_run {A : Type} (m : M A) s r s' : m s = (r, s') -> after m s = s'.
Proof. unfold after. intros ->. reflexivity. Qed.

Lemma locked_no_password fuel s :
  password s = None ->
  environ s !! "UNLOCK" = None ->
  locked (unlocked (S fuel)) s = (Returns true, s).
Proof.
  intros Hp He. unfold locked. run.
  rewrite (unlocked_no_password _ _ Hp), He. reflexivity.
Qed.

(** The state [lock()] leaves after a first [unlock pw]. *)
Lemma locked_after_initialised pw s :
  snd (lock (initialised pw s)) =
  State (config (initialised pw s)) None None (environ s)
        (random (initialised pw s)).
Proof. reflexivity. Qed.

Lemma initialised_has_master pw s :
  has_encrypted_master (snd (lock (initialised pw s))) = true.
Proof.
  unfold has_encrypted_master. cbn [lock snd config initialised].
  rewrite locked_after_initialised. cbn [config initialised].
  rewrite contains_setitem, getitem_setitem. cbn [Str.truthy_opt].
  rewrite truthy_format_entry. reflexivity.
Qed.

(** C1, amended. For every non-empty password [pw] and every state with
    no encrypted master entry in the config store: [unlock pw], then
    [lock()], then [unlock pw] again all return, and [masterkey] is at
    the end the master key the first [unlock] generated; the cipher is
    assumed to decrypt what it encrypted under the same password, and to
    give ciphertexts without a dollar sign. *)
Theorem C1_unlock_lock_unlock (Hrt : aes_round_trip) (Hdf : aes_dollar_free)
    (fuel : nat) (pw : string) (s : state) :
  has_encrypted_master s = false ->
  Str.truthy pw = true ->
  master_round_trip (S fuel) pw s.
Proof.
  intros Hm Ht. unfold master_round_trip.
  rewrite (unlock_new _ _ _ Hm Ht).
  eexists _, _. split; [reflexivity|]. split; [reflexivity|].
  change ((lock;; unlock (unlocked (S fuel)) pw) (initialised pw s))
    with (unlock (unlocked (S fuel)) pw (snd (lock (initialised pw s)))).
  rewrite (unlock_saved_entry _ pw _ (fresh_master s) _ _
             (initialised_has_master pw s)
             (getitem_setitem _ _ _)
             (fresh_master_checksum s)
             (Hdf _ _ _)).
  rewrite Hrt, fresh_master_checksum, String.eqb_refl.
  split; reflexivity.
Qed.

Lemma saved_entry_present s c ct cfg :
  config s = StoreInterface.__setitem__ config_key (format_entry c ct) cfg ->
  has_encrypted_master s = true /\
  StoreInterface.__getitem__ (config s) config_key = Some (format_entry c ct).
Proof.
  intros E. unfold has_encrypted_master. rewrite E.
  rewrite contains_setitem, getitem_setitem. cbn [Str.truthy_opt].
  rewrite truthy_format_entry. auto.
Qed.

(** [unlock q] on a locked store whose entry holds the master key [m]
    encrypted under [p]: the checksum of what the cipher gives under [q]
    decides. *)
Lemma unlock_checksum_differs (Hdf : aes_dollar_free) u p q m c e cfg s :
  config s
    = StoreInterface.__setitem__ config_key
        (format_entry c (fst (AES_encrypt p m e))) cfg ->
  derive_checksum m = Ok c ->
  (forall d, AES_decrypt q (fst (AES_encrypt p m e)) = Ok d ->
             derive_checksum d <> derive_checksum m) ->
  unlock u q s = (Raises WrongMasterPasswordException, set_password None s).
Proof.
  intros Hcfg Hc Hbad.
  destruct (saved_entry_present _ _ _ _ Hcfg) as [Hm Hg].
  rewrite (unlock_saved_entry _ q _ m _ _ Hm Hg Hc (Hdf _ _ _)).
  destruct (AES_decrypt q _) as [d|x] eqn:Hd; [|reflexivity].
  specialize (Hbad d eq_refl). rewrite Hc in Hbad.
  destruct (derive_checksum d) as [c'|x]; [|reflexivity].
  destruct (String.eqb_spec c c') as [->|_]; [congruence|reflexivity].
Qed.

Lemma unlock_checksum_agrees (Hdf : aes_dollar_free) u p q m c e cfg s d :
  config s
    = StoreInterface.__setitem__ config_key
        (format_entry c (fst (AES_encrypt p m e))) cfg ->
  derive_checksum m = Ok c ->
  AES_decrypt q (fst (AES_encrypt p m e)) = Ok d ->
  derive_checksum d = derive_checksum m ->
  unlock u q s =
  (Returns tt, set_decrypted_master (Some d) (set_password (Some q) s)).
Proof.
  intros Hcfg Hc Hd Hsame.
  destruct (saved_entry_present _ _ _ _ Hcfg) as [Hm Hg].
  rewrite (unlock_saved_entry _ q _ m _ _ Hm Hg Hc (Hdf _ _ _)).
  rewrite Hd, Hsame, Hc, String.eqb_refl. reflexivity.
Qed.

(** [unlock p] on a locked store whose entry holds the master key [m]
    encrypted under [p]. *)
Lemma unlock_right_password (Hrt : aes_round_trip) (Hdf : aes_dollar_free)
    u p m c e cfg s :
  config s
    = StoreInterface.__setitem__ config_key
        (format_entry c (fst (AES_encrypt p m e))) cfg ->
  derive_checksum m = Ok c ->
  unlock u p s =
  (Returns tt, set_decrypted_master (Some m) (set_password (Some p) s)).
Proof.
  intros Hcfg Hc.
  destruct (saved_entry_present _ _ _ _ Hcfg) as [Hm Hg].
  rewrite (unlock_saved_entry _ p _ m _ _ Hm Hg Hc (Hdf _ _ _)).
  rewrite Hrt, Hc, String.eqb_refl. reflexivity.
Qed.

(** C2, amended. For every non-empty password [p] and every password
    [q], from a state with no encrypted master entry, [unlock p] returns
    and, after [lock()], the checksum decides what [unlock q] does. If
    the cipher, decrypting the saved ciphertext under [q], raises or
    gives a text whose checksum is not that of the master key, [unlock q]
    raises [WrongMasterPasswordException], leaves no password and no
    master key held, and leaves the entry in the config store. If it
    gives a text with the checksum of the master key (as under [p]
    itself, or when the four characters happen to agree), [unlock q]
    returns and holds that text as the master key. The cipher is assumed
    to give ciphertexts without a dollar sign. *)
Theorem C2_wrong_password (Hdf : aes_dollar_free)
    (fuel : nat) (p q : string) (s : state) :
  has_encrypted_master s = false ->
  Str.truthy p = true ->
  ((forall d, AES_decrypt q (first_ciphertext p s) = Ok d ->
              derive_checksum d <> derive_checksum (fresh_master s)) ->
   wrong_password_rejected (S fuel) p q s) /\
  (forall d, AES_decrypt q (first_ciphertext p s) = Ok d ->
             derive_checksum d = derive_checksum (fresh_master s) ->
   exists s1 s3,
     unlock (unlocked (S fuel)) p s = (Returns tt, s1) /\
     (lock;; unlock (unlocked (S fuel)) q) s1 = (Returns tt, s3) /\
     password s3 = Some q /\
     decrypted_master s3 = Some d).
Proof.
  intros Hm Ht. split.
  - intros Hbad. unfold wrong_password_rejected.
    rewrite (unlock_new _ _ _ Hm Ht).
    eexists _, _. split; [reflexivity|].
    change ((lock;; unlock (unlocked (S fuel)) q) (initialised p s))
      with (unlock (unlocked (S fuel)) q (snd (lock (initialised p s)))).
    rewrite (unlock_checksum_differs Hdf _ p q (fresh_master s) _ _ _
               (snd (lock (initialised p s)))
               eq_refl (fresh_master_checksum s) Hbad).
    split; [reflexivity|].
    cbn [password decrypted_master config set_password].
    repeat (split; [reflexivity|]). split.
    + eapply saved_entry_present. reflexivity.
    + intros He. apply locked_no_password; [reflexivity|exact He].
  - intros d Hd Hsame.
    rewrite (unlock_new _ _ _ Hm Ht).
    eexists _, _. split; [reflexivity|].
    change ((lock;; unlock (unlocked (S fuel)) q) (initialised p s))
      with (unlock (unlocked (S fuel)) q (snd (lock (initialised p s)))).
    rewrite (unlock_checksum_agrees Hdf _ p q (fresh_master s) _ _ _
               (snd (lock (initialised p s))) d
               eq_refl (fresh_master_checksum s) Hd Hsame).
    split; [reflexivity|]. split; reflexivity.
Qed.

(** C7, amended. For all non-empty passwords [p] and [q], after
    [unlock p] has returned: [change_password q], [lock()] and [unlock q]
    return, and [masterkey] is the master key held before the change.
    What the [unlock p] that follows does is decided by the checksum: it
    raises [WrongMasterPasswordException], no password held, if the
    cipher, decrypting the new ciphertext under [p], raises or gives a
    text whose checksum is not that of the master key; it returns,
    holding that text as the master key, if the checksums agree (as they
    do when [q] is [p]). The cipher is assumed to decrypt what it
    encrypted under the same password and to give ciphertexts without a
    dollar sign. *)
Theorem C7_change_password (Hrt : aes_round_trip) (Hdf : aes_dollar_free)
    (fuel : nat) (p q : string) (s0 s1 : state) :
  unlock (unlocked (S fuel)) p s0 = (Returns tt, s1) ->
  Str.truthy p = true ->
  Str.truthy q = true ->
  exists m s2 s4,
    decrypted_master s1 = Some m /\
    change_password (unlocked (S fuel)) q s1 = (Returns tt, s2) /\
    (lock;; unlock (unlocked (S fuel)) q) s2 = (Returns tt, s4) /\
    decrypted_master s4 = Some m /\
    ((forall d, AES_decrypt p (fst (AES_encrypt q m (random s1))) = Ok d ->
                derive_checksum d <> derive_checksum m) ->
     exists s5,
       unlock (unlocked (S fuel)) p s4
         = (Raises WrongMasterPasswordException, s5) /\
       password s5 = None) /\
    (forall d, AES_decrypt p (fst (AES_encrypt q m (random s1))) = Ok d ->
               derive_checksum d = derive_checksum m ->
     exists s5,
       unlock (unlocked (S fuel)) p s4 = (Returns tt, s5) /\
       decrypted_master s5 = Some d).
Proof.
  intros Hu Htp Htq.
  apply unlock_returns in Hu as (Hp & m & c & Hm & Hc).
  exists m.
  rewrite (change_password_spec _ _ _ _ _ _ Hp Htp Htq Hm Hc).
  eexists _, _. split; [exact Hm|]. split; [reflexivity|].
  match goal with
  | |- (lock;; ?u) ?s = _ /\ _ =>
      change ((lock;; u) s) with (u (snd (lock s)));
      rewrite (unlock_right_password Hrt Hdf _ q m c _ _ (snd (lock s))
                 eq_refl Hc)
  end.
  split; [reflexivity|]. split; [reflexivity|]. split.
  - intros Hbad. eexists. split.
    + match goal with
      | |- unlock _ _ ?s = _ =>
          apply (unlock_checksum_differs Hdf _ q p m c _ _ s eq_refl Hc Hbad)
      end.
    + reflexivity.
  - intros d Hd Hsame. eexists. split.
    + match goal with
      | |- unlock _ _ ?s = _ =>
          apply (unlock_checksum_agrees Hdf _ q p m c _ _ s d
                   eq_refl Hc Hd Hsame)
      end.
    + reflexivity.
Qed.

(** C4. In [decrypt_encrypted_master], with a password held and an entry
    of two fields: whether the cipher raises (any exception) or returns a
    text whose checksum is not the stored one (or has none), the outcome
    is the same: [WrongMasterPasswordException] is raised, and the state
    is the one before the call with the password cleared. *)
Theorem C4_cipher_error_as_mismatch (s : state) (k c e : string) :
  password s = Some k ->
  split_entry (StoreInterface.__getitem__ (config s) config_key)
    = Ok (c, e) ->
  (exists x, AES_decrypt k e = Raise x) \/
  (exists d, AES_decrypt k e = Ok d /\ derive_checksum d <> Ok c) ->
  decrypt_encrypted_master s =
  (Raises WrongMasterPasswordException, set_password None s).
Proof.
  intros Hp Hs Hbad.
  apply (decrypt_encrypted_master_fails s k c e Hp Hs).
  intros d Hd. destruct Hbad as [[x Hx]|[d' [Hd' Hc]]]; congruence.
Qed.

(** What [unlocked()] does as written when no password is held, [UNLOCK]
    is set to a non-empty value [v] and the config store has an entry: it
    calls [unlock v] with no [try] around it. If that returns,
    [unlocked()] returns [True]; if that raises, the exception leaves
    [unlocked()] and the [return bool(self.password)] after the call is
    not reached. *)
Lemma auto_unlock_outcomes (fuel : nat) (s : state) (v : string) :
  password s = None ->
  environ s !! "UNLOCK" = Some v ->
  Str.truthy v = true ->
  has_encrypted_master s = true ->
  (forall s', unlock (unlocked fuel) v s = (Returns tt, s') ->
              unlocked (S fuel) s = (Returns true, s')) /\
  (forall x s', unlock (unlocked fuel) v s = (Raises x, s') ->
                unlocked (S fuel) s = (Raises x, s')) /\
  (forall c e,
     split_entry (StoreInterface.__getitem__ (config s) config_key)
       = Ok (c, e) ->
     (forall d, AES_decrypt v e = Ok d -> derive_checksum d <> Ok c) ->
     unlocked (S fuel) s = (Raises WrongMasterPasswordException, s)).
Proof.
  intros Hp He Hv Hm.
  rewrite (unlocked_no_password _ _ Hp), He, Hv, Hm. cbn [andb].
  rewrite !(unlock_existing _ _ _ Hm).
  split; [|split].
  - intros s' E. rewrite E.
    apply decrypt_encrypted_master_inv in E.
    destruct E as (k & c & e & d & Hk & _ & _ & _ & ->).
    cbn. rewrite Hv. reflexivity.
  - intros x s' E. rewrite E. reflexivity.
  - intros c e Hs Hbad.
    rewrite (decrypt_encrypted_master_fails
               (set_password (Some v) s) v c e eq_refl Hs Hbad).
    destruct s as [cfg pw dm env rnd]. cbn in Hp. subst pw. reflexivity.
Qed.

(** C6. In every state in which [locked()] returns [True], each of
    [encrypt wif], [decrypt wif] and [change_password new_password]
    raises [WalletLocked], and neither they nor the query change the
    state: the config store, the held password and the master key are
    what they were. *)
Theorem C6_locked_operations_raise (fuel : nat) (s s' : state)
    (wif new_password : string) :
  locked (unlocked (S fuel)) s = (Returns true, s') ->
  s' = s /\
  encrypt (unlocked (S fuel)) wif s = (Raises WalletLocked, s) /\
  decrypt (unlocked (S fuel)) wif s = (Raises WalletLocked, s) /\
  change_password (unlocked (S fuel)) new_password s
    = (Raises WalletLocked, s).
Proof.
  unfold locked, encrypt, decrypt, change_password. run.
  destruct (unlocked (S fuel) s) as [[b| |] s''] eqn:Hu;
    intros E; inversion E; subst.
  destruct b; [discriminate|].
  apply unlocked_false in Hu. subst. auto.
Qed.

(** C10. [unlock("")] on a state with no encrypted master entry raises
    [WalletLocked]: [new_master] has generated a master key, and the
    [unlocked()] of [get_encrypted_master] answers [False] for the empty
    password; the new master key stays held, with the empty password,
    and the config store is as it was. *)
Theorem C10_unlock_empty_password (fuel : nat) (s : state) :
  has_encrypted_master s = false ->
  exists s',
    unlock (unlocked (S fuel)) "" s = (Raises WalletLocked, s') /\
    decrypted_master s' = Some (fresh_master s) /\
    password s' = Some "" /\
    config s' = config s /\
    unlocked (S fuel) s' = (Returns false, s').
Proof.
  intros Hm. rewrite (unlock_new_empty _ _ Hm).
  eexists. split; [reflexivity|]. cbn.
  repeat (split; [reflexivity|]).
  apply (unlocked_held fuel _ ""). reflexivity.
Qed.
End Properties.

(** C8, amended. For every string [s] of ASCII characters,
    [derive_checksum s] is the first four characters of the lowercase
    hexadecimal SHA-256 digest of the bytes of [s]: four hexadecimal
    digits, the same at every call. *)
Theorem C8_derive_checksum (s : string) :
  Str.is_ascii s = true -> checksum_is_digest_prefix s.
Proof.
  intros Hs. unfold checksum_is_digest_prefix.
  pose proof (derive_checksum_ascii s Hs) as Hc.
  eexists. split; [exact Hc|]. split; [reflexivity|].
  split; apply (checksum_shape _ _ Hc).
Qed.

(** C9. [StoreInterface.__getitem__] returns the stored value when the key
    is in the store, else the default registered for the key by
    [setdefault], else [None]; it is total, so no key makes it raise. *)
Theorem C9_getitem {K V : Type} `{Countable K}
    (st : StoreInterface.t K V) (key : K) (value : V) :
  StoreInterface.__getitem__ st key =
    match StoreInterface.items st !! key with
    | Some stored => Some stored
    | None =>
        match StoreInterface.defaults st !! key with
        | Some registered => Some registered
        | None => None
        end
    end /\
  StoreInterface.__getitem__ (StoreInterface.__setitem__ key value st) key
    = Some value /\
  StoreInterface.__getitem__ (StoreInterface.setdefault key value st) key =
    match StoreInterface.items st !! key with
    | Some stored => Some stored
    | None => Some value
    end.
Proof.
  split; [|split].
  - rewrite getitem_lookup.
    destruct (StoreInterface.items st !! key); [reflexivity|].
    destruct (StoreInterface.defaults st !! key); reflexivity.
  - apply getitem_setitem.
  - apply getitem_setdefault.
Qed.

(* ===================================================================== *)
(** ** Runs on concrete states *)
(* ===================================================================== *)

Section Runs.
#[local] Existing Instance ToyCipher.primitives.

Example unlock_hunter2 :
  unlock (unlocked 1) "hunter2" fresh_state = (Returns tt, unlocked_state) /\
  decrypted_master unlocked_state
    = Some "000102030405060708090a0b0c0d0e0f101112131415161718191a1b1c1d1e1f" /\
  saved_checksum = "6c86".
Proof. vm_compute. auto. Qed.

Example derive_checksum_abc : derive_checksum "abc" = Ok "ba78".
Proof. vm_compute. reflexivity. Qed.

Example hexdigest_abc :
  SHA256.hexdigest (list_byte_of_string "abc") =
  "ba7816bf8f01cfea414140de5dae2223b00361a396177a9cb410ff61f20015ad".
Proof. vm_compute. reflexivity. Qed.

Example hexdigest_empty :
  SHA256.hexdigest [] =
  "e3b0c44298fc1c149afbf4c8996fb92427ae41e4649b934ca495991b7852b855".
Proof. vm_compute. reflexivity. Qed.

Example hexdigest_two_blocks :
  SHA256.hexdigest
    (list_byte_of_string
       "abcdbcdecdefdefgefghfghighijhijkijkljklmklmnlmnomnopnopq") =
  "248d6a61d20638b8e5c026930c3e6039a33ce45964ff2167f6ecedd419db06c1".
Proof. vm_compute. reflexivity. Qed.

Lemma C1_unlock_lock_unlock_witness :
  aes_round_trip /\
  aes_dollar_free /\
  has_encrypted_master fresh_state = false /\
  Str.truthy "hunter2" = true /\
  master_round_trip 1 "hunter2" fresh_state.
Proof.
  split; [exact toy_round_trip|]. split; [exact toy_dollar_free|].
  split; [reflexivity|]. split; [reflexivity|].
  apply (C1_unlock_lock_unlock toy_round_trip toy_dollar_free
           0 "hunter2" fresh_state); reflexivity.
Defined.

(** C1 as stated fails for the empty password: the first [unlock("")]
    raises [WalletLocked], and a caller that goes on with [lock()] and
    [unlock("")] ends with another master key than the first one. *)
Lemma C1_empty_password_counterexample :
  ~ master_round_trip 1 "" fresh_state /\
  fst (unlock (unlocked 1) "" fresh_state) = Raises WalletLocked /\
  decrypted_master
    (after (unlock (unlocked 1) "")
       (after lock (after (unlock (unlocked 1) "") fresh_state)))
  <> decrypted_master (after (unlock (unlocked 1) "") fresh_state).
Proof.
  split; [|split].
  - intros (s1 & s3 & E & _). apply (f_equal fst) in E.
    vm_compute in E. discriminate E.
  - vm_compute. reflexivity.
  - vm_compute. discriminate.
Qed.

Lemma C2_wrong_password_witness :
  aes_dollar_free /\
  has_encrypted_master fresh_state = false /\
  Str.truthy "hunter2" = true /\
  (forall d, AES_decrypt "wrong" (first_ciphertext "hunter2" fresh_state) = Ok d ->
             derive_checksum d <> derive_checksum (fresh_master fresh_state)) /\
  wrong_password_rejected 1 "hunter2" "wrong" fresh_state.
Proof.
  assert (Hfails : forall d,
            AES_decrypt "wrong" (first_ciphertext "hunter2" fresh_state) = Ok d ->
            derive_checksum d <> derive_checksum (fresh_master fresh_state)).
  { intros d Hd. vm_compute in Hd. discriminate Hd. }
  split; [exact toy_dollar_free|].
  split; [reflexivity|]. split; [reflexivity|]. split; [exact Hfails|].
  apply (C2_wrong_password toy_dollar_free 0 "hunter2" "wrong" fresh_state);
    [reflexivity|reflexivity|exact Hfails].
Defined.

(** C2 as stated fails in two ways. When the first password is empty,
    [unlock("")] raises [WalletLocked] and saves no entry, so that after
    [lock()] the call [unlock("x")] creates a master key and returns.
    And for two distinct non-empty passwords, under a cipher that
    decrypts what it encrypted, has no dollar sign in its output and
    gives another text under another password, [unlock("wrong")] returns
    when that other text has the four characters of the stored checksum:
    it is then held as the master key. *)
Lemma C2_wrong_password_counterexample :
  (~ wrong_password_rejected 1 "" "x" fresh_state /\
   fst (unlock (unlocked 1) "" fresh_state) = Raises WalletLocked /\
   fst (unlock (unlocked 1) "x"
          (after lock (after (unlock (unlocked 1) "") fresh_state)))
   = Returns tt) /\
  (@aes_round_trip ToyCipher.colliding_primitives /\
   @aes_dollar_free ToyCipher.colliding_primitives /\
   @aes_fails_or_garbles ToyCipher.colliding_primitives /\
   ~ @wrong_password_rejected ToyCipher.colliding_primitives
       1 "hunter2" "wrong" fresh_state /\
   @unlock ToyCipher.colliding_primitives
     (@unlocked ToyCipher.colliding_primitives 1) "wrong"
     (after (@lock) colliding_unlocked_state)
   = (Returns tt,
      set_decrypted_master (Some ToyCipher.collision)
        (set_password (Some "wrong") (after (@lock) colliding_unlocked_state)))).
Proof.
  split; [split; [|split]|].
  - intros (s1 & s3 & E & _). apply (f_equal fst) in E.
    vm_compute in E. discriminate E.
  - vm_compute. reflexivity.
  - vm_compute. reflexivity.
  - split; [exact colliding_round_trip|].
    split; [exact colliding_dollar_free|].
    split; [exact colliding_fails_or_garbles|]. split.
    + intros (s1 & s3 & E1 & E3 & _).
      apply after_run in E1. subst s1.
      apply (f_equal fst) in E3. vm_compute in E3. discriminate E3.
    + vm_compute. reflexivity.
Qed.

(** C3 fails on the code: an [unlock] with a wrong password while the
    manager is unlocked raises [WrongMasterPasswordException] and clears
    the password, so that [locked()] answers [True], but the master key
    is still held. *)
Theorem C3_master_held_while_locked :
  fst (unlock (unlocked 1) "wrong" unlocked_state)
    = Raises WrongMasterPasswordException /\
  (let s := after (unlock (unlocked 1) "wrong") unlocked_state in
   locked (unlocked 1) s = (Returns true, s) /\
   password s = None /\
   decrypted_master s = decrypted_master unlocked_state /\
   decrypted_master s <> None).
Proof. vm_compute. repeat split; discriminate. Qed.

Lemma C4_cipher_error_as_mismatch_witness :
  password trying_wrong_state = Some "wrong" /\
  split_entry
    (StoreInterface.__getitem__ (config trying_wrong_state) config_key)
    = Ok (saved_checksum, saved_ciphertext) /\
  (exists x, AES_decrypt "wrong" saved_ciphertext = Raise x) /\
  decrypt_encrypted_master trying_wrong_state =
  (Raises WrongMasterPasswordException, set_password None trying_wrong_state).
Proof.
  split; [reflexivity|]. split; [vm_compute; reflexivity|].
  split; [eexists; vm_compute; reflexivity|].
  apply (C4_cipher_error_as_mismatch trying_wrong_state "wrong"
           saved_checksum saved_ciphertext);
    [reflexivity|vm_compute; reflexivity|].
  left. eexists. vm_compute. reflexivity.
Defined.

Example auto_unlock_with_wrong_password :
  unlocked 1 locked_state_wrong_env
    = (Raises WrongMasterPasswordException, locked_state_wrong_env).
Proof.
  apply (auto_unlock_outcomes 0 locked_state_wrong_env "wrong"
           eq_refl eq_refl eq_refl eq_refl)
    with (c := saved_checksum) (e := saved_ciphertext).
  - vm_compute. reflexivity.
  - intros d Hd. vm_compute in Hd. discriminate Hd.
Qed.

(** C5 fails on the code: on a locked store, with no password held and a
    wrong password in [UNLOCK], [unlocked()] and [locked()] do not answer
    (with [False] and [True]): the [WrongMasterPasswordException] of the
    [unlock] they try reaches the caller. The same store answers when
    [UNLOCK] is not set. *)
Theorem C5_unlocked_raises_on_wrong_env :
  password locked_state_wrong_env = None /\
  environ locked_state_wrong_env !! "UNLOCK" = Some "wrong" /\
  has_encrypted_master locked_state_wrong_env = true /\
  fst (unlocked 1 locked_state_wrong_env)
    = Raises WrongMasterPasswordException /\
  fst (locked (unlocked 1) locked_state_wrong_env)
    = Raises WrongMasterPasswordException /\
  ~ unlocked_is_silent 1 locked_state_wrong_env /\
  unlocked 1 locked_state = (Returns false, locked_state).
Proof.
  split; [reflexivity|]. split; [reflexivity|].
  split; [vm_compute; reflexivity|]. split; [vm_compute; reflexivity|].
  split; [vm_compute; reflexivity|]. split.
  - intros (b & s' & E). apply (f_equal fst) in E.
    vm_compute in E. discriminate E.
  - vm_compute. reflexivity.
Qed.

Lemma C6_locked_operations_raise_witness :
  locked (unlocked 1) locked_state = (Returns true, locked_state) /\
  encrypt (unlocked 1) "5Kwif" locked_state
    = (Raises WalletLocked, locked_state) /\
  decrypt (unlocked 1) "6Pwif" locked_state
    = (Raises WalletLocked, locked_state) /\
  change_password (unlocked 1) "swordfish" locked_state
    = (Raises WalletLocked, locked_state).
Proof.
  split; [vm_compute; reflexivity|].
  split; [|split].
  - apply (C6_locked_operations_raise 0 locked_state locked_state
             "5Kwif" "swordfish"). vm_compute. reflexivity.
  - apply (C6_locked_operations_raise 0 locked_state locked_state
             "6Pwif" "swordfish"). vm_compute. reflexivity.
  - apply (C6_locked_operations_raise 0 locked_state locked_state
             "5Kwif" "swordfish"). vm_compute. reflexivity.
Defined.

Lemma C7_change_password_witness :
  aes_round_trip /\
  aes_dollar_free /\
  unlock (unlocked 1) "hunter2" fresh_state = (Returns tt, unlocked_state) /\
  Str.truthy "hunter2" = true /\
  Str.truthy "swordfish" = true /\
  password_change_holds 1 "hunter2" "swordfish" unlocked_state.
Proof.
  split; [exact toy_round_trip|]. split; [exact toy_dollar_free|].
  split; [vm_compute; reflexivity|].
  split; [reflexivity|]. split; [reflexivity|].
  destruct (C7_change_password toy_round_trip toy_dollar_free
              0 "hunter2" "swordfish" fresh_state unlocked_state)
    as (m & s2 & s4 & Hm & H2 & H4 & Hm4 & Hraise & _);
    [vm_compute; reflexivity|reflexivity|reflexivity|].
  destruct Hraise as (s5 & H5 & _).
  { intros d Hd.
    change (ToyCipher.decrypt "hunter2"
              (fst (ToyCipher.encrypt "swordfish" m (random unlocked_state)))
            = Ok d) in Hd.
    rewrite toy_fails_under_wrong_password in Hd by discriminate.
    discriminate Hd. }
  exists m, s2, s4, s5. auto.
Defined.

(** C7 as stated fails when the new password is the old one (the last
    [unlock p] returns), when the new password is empty
    ([change_password("")] raises [WalletLocked]), and, for two distinct
    non-empty passwords, under a cipher that decrypts what it encrypted
    and gives another text under another password: when that other text
    has the four characters of the stored checksum the last [unlock p]
    returns. *)
Lemma C7_change_password_counterexample :
  ~ password_change_holds 1 "hunter2" "hunter2" unlocked_state /\
  ~ password_change_holds 1 "hunter2" "" unlocked_state /\
  fst (change_password (unlocked 1) "" unlocked_state) = Raises WalletLocked /\
  (@aes_round_trip ToyCipher.colliding_primitives /\
   @aes_dollar_free ToyCipher.colliding_primitives /\
   @aes_fails_or_garbles ToyCipher.colliding_primitives /\
   @unlock ToyCipher.colliding_primitives
     (@unlocked ToyCipher.colliding_primitives 1) "hunter2" fresh_state
   = (Returns tt, colliding_unlocked_state) /\
   ~ @password_change_holds ToyCipher.colliding_primitives
       1 "hunter2" "swordfish" colliding_unlocked_state).
Proof.
  split; [|split; [|split]].
  - intros (m & s2 & s4 & s5 & _ & E2 & E4 & _ & E5).
    apply after_run in E2. apply after_run in E4. subst s2 s4.
    apply (f_equal fst) in E5. vm_compute in E5. discriminate E5.
  - intros (m & s2 & s4 & s5 & _ & E2 & _).
    apply (f_equal fst) in E2. vm_compute in E2. discriminate E2.
  - vm_compute. reflexivity.
  - split; [exact colliding_round_trip|].
    split; [exact colliding_dollar_free|].
    split; [exact colliding_fails_or_garbles|].
    split; [vm_compute; reflexivity|].
    intros (m & s2 & s4 & s5 & _ & E2 & E4 & _ & E5).
    apply after_run in E2. apply after_run in E4. subst s2 s4.
    apply (f_equal fst) in E5. vm_compute in E5. discriminate E5.
Qed.

Lemma C10_unlock_empty_password_witness :
  has_encrypted_master fresh_state = false /\
  exists s',
    unlock (unlocked 1) "" fresh_state = (Raises WalletLocked, s') /\
    decrypted_master s' = Some (fresh_master fresh_state) /\
    password s' = Some "" /\
    config s' = config fresh_state /\
    unlocked 1 s' = (Returns false, s').
Proof.
  split; [reflexivity|].
  apply (C10_unlock_empty_password 0 fresh_state). reflexivity.
Defined.
End Runs.

Lemma C8_derive_checksum_witness :
  Str.is_ascii "abc" = true /\ checksum_is_digest_prefix "abc".
Proof.
  split; [reflexivity|]. apply (C8_derive_checksum "abc"). reflexivity.
Defined.

(** C8 as stated fails on a string with a non-ASCII character:
    [bytes(s, "ascii")] raises [UnicodeEncodeError], there is no checksum. *)
Lemma C8_non_ascii_counterexample :
  ~ checksum_is_digest_prefix e_acute /\
  derive_checksum e_acute = Raise UnicodeEncodeError.
Proof.
  split.
  - intros (c & Hc & _). vm_compute in Hc. discriminate Hc.
  - vm_compute. reflexivity.
Qed.

(* ===================================================================== *)
(** ** Further properties of [MasterPassword] *)
(* ===================================================================== *)

Lemma urandom_length n e : length (fst (urandom n e)) = n.
Proof. unfold urandom. cbn [fst]. rewrite length_map, length_seq. reflexivity. Qed.

Lemma fresh_master_length s : String.length (fresh_master s) = 64.
Proof.
  unfold fresh_master.
  rewrite string_of_list_byte_length, hexlify_length, urandom_length.
  reflexivity.
Qed.

Section MoreMethodFacts.
Context `{Primitives}.

(** [decrypt_encrypted_master] writes neither the config store, nor the
    environment, nor the entropy source. *)
Lemma decrypt_encrypted_master_frame s r s' :
  decrypt_encrypted_master s = (r, s') ->
  config s' = config s /\ environ s' = environ s /\ random s' = random s.
Proof.
  unfold decrypt_encrypted_master. run.
  destruct (password s) as [k|]; cbn;
    [|intros E; inversion E; subst; auto].
  destruct (split_entry _) as [[c e]|x]; cbn;
    [|intros E; inversion E; subst; auto].
  destruct (AES_decrypt k e) as [d|x]; cbn;
    [|intros E; inversion E; subst; auto].
  destruct (derive_checksum d) as [c'|x]; cbn;
    [|intros E; inversion E; subst; auto].
  destruct (negb (String.eqb c c')); cbn;
    intros E; inversion E; subst; auto.
Qed.

(** [unlocked()] writes neither the config store, nor the environment,
    nor the entropy source. *)
Lemma unlocked_frame fuel s r s' :
  unlocked (S fuel) s = (r, s') ->
  config s' = config s /\ environ s' = environ s /\ random s' = random s.
Proof.
  destruct (password s) as [p|] eqn:Hp.
  - rewrite (unlocked_held _ _ _ Hp). intros E. inversion E. auto.
  - rewrite (unlocked_no_password _ _ Hp).
    destruct (environ s !! "UNLOCK") as [v|];
      [|intros E; inversion E; auto].
    destruct (Str.truthy v && has_encrypted_master s);
      [|intros E; inversion E; auto].
    destruct (decrypt_encrypted_master _) as [r0 s0] eqn:E0.
    apply decrypt_encrypted_master_frame in E0. cbn in E0.
    destruct r0; intros E; inversion E; subst; auto.
Qed.

(** An [unlocked()] that answers [True] leaves a non-empty password held. *)
Lemma unlocked_true fuel s s' :
  unlocked (S fuel) s = (Returns true, s') ->
  exists p, password s' = Some p /\ Str.truthy p = true.
Proof.
  destruct (password s) as [p|] eqn:Hp.
  - rewrite (unlocked_held _ _ _ Hp). intros E. inversion E. subst. eauto.
  - rewrite (unlocked_no_password _ _ Hp).
    destruct (environ s !! "UNLOCK") as [v|]; [|discriminate].
    destruct (Str.truthy v && has_encrypted_master s); [|discriminate].
    destruct (decrypt_encrypted_master _) as [r0 s0] eqn:E0.
    apply decrypt_encrypted_master_inv in E0.
    destruct r0; [|discriminate|contradiction].
    destruct E0 as (k & c & e & d & _ & _ & _ & _ & ->). cbn.
    intros E. inversion E. subst. exists v. split; [reflexivity|].
    destruct (Str.truthy v); [reflexivity|discriminate].
Qed.

(** X1. [new_master] never overwrites: on a config store that has an
    encrypted master entry it raises
    [Exception("Storage already has a masterpassword!")] and leaves the
    state as it was. *)
Theorem X1_new_master_refuses_existing (u : M bool) (pw : string) (s : state) :
  has_encrypted_master s = true ->
  new_master u pw s =
  (Raises (Exception "Storage already has a masterpassword!"), s).
Proof.
  intros Hm. unfold new_master. run. rewrite Hm. reflexivity.
Qed.

(** X2. On a config store with no entry and with a non-empty password,
    [new_master] returns the new master key: 64 lowercase hexadecimal
    digits, the rendering of the next 32 bytes of [os.urandom]; it is then
    held with the password, the entry is saved, and [has_masterpassword()]
    answers [True]. *)
Theorem X2_new_master_shape (fuel : nat) (pw : string) (s : state) :
  has_encrypted_master s = false ->
  Str.truthy pw = true ->
  exists m s',
    new_master (unlocked (S fuel)) pw s = (Returns (Some m), s') /\
    m = string_of_list_byte (Hex.hexlify (fst (urandom 32 (random s)))) /\
    String.length m = 64 /\
    is_hex m = true /\
    decrypted_master s' = Some m /\
    password s' = Some pw /\
    has_masterpassword s' = (Returns true, s').
Proof.
  intros Hm Ht. exists (fresh_master s), (initialised pw s).
  split.
  - unfold new_master, save_encrypted_master. run. rewrite Hm. cbn.
    rewrite decode_hexlify. cbn.
    erewrite get_encrypted_master_spec;
      [|reflexivity|exact Ht|reflexivity|apply (fresh_master_checksum s)].
    reflexivity.
  - split; [reflexivity|]. split; [apply fresh_master_length|].
    split; [apply fresh_master_is_hex|].
    split; [reflexivity|]. split; [reflexivity|].
    unfold has_masterpassword, gets. cbn [config initialised].
    rewrite contains_setitem. reflexivity.
Qed.

(** What a [get_encrypted_master] that returns has done. *)
Lemma get_encrypted_master_returns fuel s v s' :
  get_encrypted_master (unlocked (S fuel)) s = (Returns v, s') ->
  exists s1 p m c,
    unlocked (S fuel) s = (Returns true, s1) /\
    password s1 = Some p /\ Str.truthy p = true /\
    decrypted_master s1 = Some m /\
    derive_checksum m = Ok c /\
    v = format_entry c (fst (AES_encrypt p m (random s1))) /\
    s' = set_random (snd (AES_encrypt p m (random s1))) s1.
Proof.
  unfold get_encrypted_master. run.
  destruct (unlocked (S fuel) s) as [[[|]| |] s1] eqn:Hu; cbn;
    try (intros E; discriminate E).
  destruct (unlocked_true _ _ _ Hu) as (p & Hp & Ht).
  rewrite Hp. cbn.
  destruct (decrypted_master s1) as [m|] eqn:Hm; cbn;
    [|intros E; discriminate E].
  destruct (derive_checksum m) as [c|x] eqn:Hc; cbn;
    [|intros E; discriminate E].
  destruct (AES_encrypt p m (random s1)) as [ct e'] eqn:He. cbn.
  intros E. inversion E. subst.
  exists s1, p, m, c. rewrite He. cbn [fst snd].
  repeat (split; [assumption || reflexivity|]). reflexivity.
Qed.

(** X3. Whenever [save_encrypted_master] returns, the manager holds a
    non-empty password and a master key, and the entry it has written is
    [checksum$ciphertext] with [checksum = derive_checksum(masterkey)]
    (four hexadecimal digits) and [ciphertext] the master key encrypted
    under the held password. *)
Theorem X3_saved_entry_is_checksummed (fuel : nat) (s s' : state) :
  save_encrypted_master (unlocked (S fuel)) s = (Returns tt, s') ->
  exists p m c e,
    password s' = Some p /\ Str.truthy p = true /\
    decrypted_master s' = Some m /\
    derive_checksum m = Ok c /\
    String.length c = 4 /\
    StoreInterface.__getitem__ (config s') config_key
      = Some (c +:+ "$" +:+ fst (AES_encrypt p m e)) /\
    has_encrypted_master s' = true.
Proof.
  unfold save_encrypted_master. run.
  destruct (get_encrypted_master _ s) as [[v| |] s0] eqn:Hg; cbn;
    try (intros E; discriminate E).
  apply get_encrypted_master_returns in Hg
    as (s1 & p & m & c & _ & Hp & Ht & Hm & Hc & -> & ->).
  intros E. inversion E. subst s'. clear E.
  exists p, m, c, (random s1).
  split; [exact Hp|]. split; [exact Ht|]. split; [exact Hm|].
  split; [exact Hc|]. split; [apply (checksum_shape _ _ Hc)|].
  eapply and_comm, saved_entry_present. reflexivity.
Qed.
End MoreMethodFacts.

Section MoreProperties.
Context `{Primitives}.

(** X4. On a config store that has an entry, [unlock] writes neither the
    config store, nor the environment, nor the entropy source, whatever
    its outcome: the saved entry is only ever written by [new_master] and
    [change_password]. *)
Theorem X4_unlock_existing_writes_nothing (u : M bool) (pw : string)
    (s s' : state) (r : outcome unit) :
  has_encrypted_master s = true ->
  unlock u pw s = (r, s') ->
  config s' = config s /\ environ s' = environ s /\ random s' = random s.
Proof.
  intros Hm. rewrite (unlock_existing _ _ _ Hm). intros E.
  apply decrypt_encrypted_master_frame in E. exact E.
Qed.

(** X5. On a config store whose entry has the two fields
    [checksum$ciphertext], [unlock pw] has two outcomes only. It returns
    exactly when the cipher decrypts the ciphertext under [pw] to a text
    whose checksum is the stored one; this text is then the master key
    held, with [pw]. Otherwise it raises [WrongMasterPasswordException]
    with no password held. *)
Theorem X5_unlock_existing_outcomes (u : M bool) (pw c e : string) (s : state) :
  has_encrypted_master s = true ->
  split_entry (StoreInterface.__getitem__ (config s) config_key) = Ok (c, e) ->
  (exists d,
     AES_decrypt pw e = Ok d /\ derive_checksum d = Ok c /\
     unlock u pw s =
     (Returns tt, set_decrypted_master (Some d) (set_password (Some pw) s)))
  \/
  ((forall d, AES_decrypt pw e = Ok d -> derive_checksum d <> Ok c) /\
   unlock u pw s = (Raises WrongMasterPasswordException, set_password None s)).
Proof.
  intros Hm Hs. rewrite (unlock_existing _ _ _ Hm).
  destruct (AES_decrypt pw e) as [d|x] eqn:Hd.
  - destruct (derive_checksum d) as [c'|x] eqn:Hc.
    + destruct (String.eqb_spec c c') as [->|Hne].
      * left. exists d. split; [reflexivity|]. split; [exact Hc|].
        apply (decrypt_encrypted_master_ok _ pw c' e d); auto.
      * right.
        assert (Hbad : forall d0, Ok d = Ok d0 -> derive_checksum d0 <> Ok c).
        { intros d0 E. apply Ok_inj in E. subst d0. congruence. }
        split; [exact Hbad|].
        apply (decrypt_encrypted_master_fails
                 (set_password (Some pw) s) pw c e eq_refl Hs).
        rewrite Hd. exact Hbad.
    + right.
      assert (Hbad : forall d0, Ok d = Ok d0 -> derive_checksum d0 <> Ok c).
      { intros d0 E. apply Ok_inj in E. subst d0. congruence. }
      split; [exact Hbad|].
      apply (decrypt_encrypted_master_fails
               (set_password (Some pw) s) pw c e eq_refl Hs).
      rewrite Hd. exact Hbad.
  - right. split; [discriminate|].
    apply (decrypt_encrypted_master_fails
             (set_password (Some pw) s) pw c e eq_refl Hs).
    rewrite Hd. discriminate.
Qed.

(** X6. Auto-unlock. After [unlock p] has created the entry and [lock()]
    has cleared the manager, in a process whose [UNLOCK] is [p] the query
    [unlocked()] returns [True] and the manager holds [p] and the master
    key of the creation again; the cipher is assumed to decrypt what it
    encrypted and to give ciphertexts without a dollar sign. *)
Theorem X6_auto_unlock_restores_master (Hrt : aes_round_trip)
    (Hdf : aes_dollar_free) (fuel : nat) (p : string) (s : state) :
  has_encrypted_master s = false ->
  Str.truthy p = true ->
  environ s !! "UNLOCK" = Some p ->
  exists s',
    (unlock (unlocked (S fuel)) p;; lock;; unlocked (S fuel)) s
      = (Returns true, s') /\
    password s' = Some p /\
    decrypted_master s' = Some (fresh_master s).
Proof.
  intros Hm Ht He.
  change ((unlock (unlocked (S fuel)) p;; lock;; unlocked (S fuel)) s)
    with (match unlock (unlocked (S fuel)) p s with
          | (Returns _, s1) => unlocked (S fuel) (snd (lock s1))
          | (Raises x, s1) => (Raises x, s1)
          | (OutOfFuel, s1) => (OutOfFuel, s1)
          end).
  rewrite (unlock_new _ _ _ Hm Ht).
  set (s2 := snd (lock (initialised p s))).
  assert (Hm2 : has_encrypted_master s2 = true)
    by apply initialised_has_master.
  rewrite (unlocked_no_password fuel s2 eq_refl).
  change (environ s2) with (environ s). rewrite He, Ht, Hm2. cbn [andb].
  rewrite <- (unlock_existing (unlocked fuel) p s2 Hm2).
  rewrite (unlock_right_password Hrt Hdf _ p (fresh_master s) _ _ _ s2
             eq_refl (fresh_master_checksum s)).
  eexists. split; [cbn; rewrite Ht; reflexivity|]. split; reflexivity.
Qed.

(** X7. While a non-empty password is held, [encrypt] and [decrypt]
    change no state and return what the wrapping primitive returns for
    the key under the held master key, or raise what it raises; so that,
    whenever the primitive unwraps under that master key what it wrapped
    for [wif], [decrypt] of what [encrypt] returned is [wif]. *)
Theorem X7_encrypt_decrypt_delegate (fuel : nat) (s : state) (p wif : string) :
  password s = Some p ->
  Str.truthy p = true ->
  encrypt (unlocked (S fuel)) wif s =
    match bip38_encrypt wif (decrypted_master s) with
    | Ok wrapped => (Returns wrapped, s)
    | Raise x => (Raises x, s)
    end /\
  decrypt (unlocked (S fuel)) wif s =
    match bip38_decrypt wif (decrypted_master s) with
    | Ok key => (Returns key, s)
    | Raise x => (Raises x, s)
    end /\
  (forall wrapped,
     bip38_encrypt wif (decrypted_master s) = Ok wrapped ->
     bip38_decrypt wrapped (decrypted_master s) = Ok wif ->
     (w ← encrypt (unlocked (S fuel)) wif; decrypt (unlocked (S fuel)) w) s
     = (Returns wif, s)).
Proof.
  intros Hp Ht. unfold encrypt, decrypt. run.
  rewrite (unlocked_held _ _ _ Hp), Ht. cbn.
  split; [|split].
  - destruct (bip38_encrypt wif (decrypted_master s)); reflexivity.
  - destruct (bip38_decrypt wif (decrypted_master s)); reflexivity.
  - intros wrapped Hw Hd. rewrite Hw. cbn.
    rewrite (unlocked_held _ _ _ Hp), Ht. cbn. rewrite Hd. reflexivity.
Qed.

(** X8. [lock()] clears the password and the master key and nothing else,
    and a second [lock()] changes nothing more; when [UNLOCK] is not set,
    [locked()] then answers [True] and [encrypt], [decrypt] and
    [change_password] raise [WalletLocked]. *)
Theorem X8_lock_then_locked (fuel : nat) (s : state) (wif pw : string) :
  environ s !! "UNLOCK" = None ->
  let s' := after lock s in
  lock s = (Returns tt, s') /\
  password s' = None /\ decrypted_master s' = None /\
  config s' = config s /\ environ s' = environ s /\ random s' = random s /\
  lock s' = (Returns tt, s') /\
  locked (unlocked (S fuel)) s' = (Returns true, s') /\
  encrypt (unlocked (S fuel)) wif s' = (Raises WalletLocked, s') /\
  decrypt (unlocked (S fuel)) wif s' = (Raises WalletLocked, s') /\
  change_password (unlocked (S fuel)) pw s' = (Raises WalletLocked, s').
Proof.
  intros He s'.
  assert (Hu : unlocked (S fuel) s' = (Returns false, s')).
  { rewrite (unlocked_no_password fuel s' eq_refl).
    change (environ s') with (environ s). rewrite He. reflexivity. }
  repeat (split; [reflexivity|]).
  unfold locked, encrypt, decrypt, change_password. run. rewrite Hu. cbn.
  repeat split; reflexivity.
Qed.

(** X9. [change_password("")] while unlocked raises [WalletLocked] after
    it has replaced the held password by the empty one: the entry and the
    master key are untouched, but the manager now answers [False] to
    [unlocked()], and the old password must be given again. *)
Theorem X9_change_to_empty_password_locks (fuel : nat) (s : state) (p : string) :
  password s = Some p ->
  Str.truthy p = true ->
  let s' := set_password (Some "") s in
  change_password (unlocked (S fuel)) "" s = (Raises WalletLocked, s') /\
  config s' = config s /\
  decrypted_master s' = decrypted_master s /\
  unlocked (S fuel) s = (Returns true, s) /\
  unlocked (S fuel) s' = (Returns false, s').
Proof.
  intros Hp Ht s'. split.
  - unfold change_password, save_encrypted_master. run.
    rewrite (unlocked_held _ _ _ Hp), Ht. cbn.
    erewrite get_encrypted_master_locked; [|reflexivity|reflexivity].
    reflexivity.
  - split; [reflexivity|]. split; [reflexivity|]. split.
    + rewrite (unlocked_held _ _ _ Hp), Ht. reflexivity.
    + apply (unlocked_held fuel s' ""). reflexivity.
Qed.

(** X10. A new manager over the config store another manager has
    initialised under [p] recovers, by [unlock p], the master key of that
    other manager, whatever its own environment and entropy source; the
    cipher is assumed to decrypt what it encrypted and to give ciphertexts
    without a dollar sign. *)
Theorem X10_entry_carries_master (Hrt : aes_round_trip) (Hdf : aes_dollar_free)
    (fuel : nat) (p : string) (s : state)
    (env : gmap string string) (rnd : entropy) :
  has_encrypted_master s = false ->
  Str.truthy p = true ->
  let first := after (unlock (unlocked (S fuel)) p) s in
  exists second second',
    __init__ (Some (config first)) env rnd = Ok second /\
    password second = None /\ decrypted_master second = None /\
    unlock (unlocked (S fuel)) p second = (Returns tt, second') /\
    decrypted_master second' = decrypted_master first /\
    decrypted_master second' = Some (fresh_master s) /\
    config second' = config first.
Proof.
  intros Hm Ht first. unfold first, after.
  rewrite (unlock_new _ _ _ Hm Ht). cbn [snd].
  eexists _, _. split; [reflexivity|]. split; [reflexivity|].
  split; [reflexivity|].
  rewrite (unlock_right_password Hrt Hdf _ p (fresh_master s) _ _ _
             (State (config (initialised p s)) None None env rnd)
             eq_refl (fresh_master_checksum s)).
  repeat split; reflexivity.
Qed.

(** X11. On a config store whose entry does not split into two fields at
    the dollar sign, [unlock pw] raises [ValueError] (or [AttributeError])
    from the unpacking, before the [try]: the password just set stays
    held with no master key decrypted, so that for a non-empty [pw] the
    manager answers [True] to [unlocked()]. *)
Theorem X11_malformed_entry (fuel : nat) (pw : string) (s : state) (x : exn) :
  has_encrypted_master s = true ->
  split_entry (StoreInterface.__getitem__ (config s) config_key) = Raise x ->
  Str.truthy pw = true ->
  let s' := set_password (Some pw) s in
  (x = ValueError \/ x = AttributeError) /\
  unlock (unlocked (S fuel)) pw s = (Raises x, s') /\
  decrypted_master s' = decrypted_master s /\
  unlocked (S fuel) s' = (Returns true, s').
Proof.
  intros Hm Hs Ht s'. split.
  - apply split_entry_raise in Hs. tauto.
  - split.
    + rewrite (unlock_existing _ _ _ Hm).
      unfold decrypt_encrypted_master. run. rewrite Hs. reflexivity.
    + split; [reflexivity|].
      rewrite (unlocked_held fuel s' pw eq_refl), Ht. reflexivity.
Qed.

(** X12. An entry that is the empty string counts for
    [has_masterpassword()] and not for [unlock]: [has_masterpassword()]
    answers [True], and [unlock p] with a non-empty [p] takes the
    [new_master] path, which puts a new master key in place of the
    entry. *)
Theorem X12_blank_entry_is_replaced (fuel : nat) (p : string) (s : state) :
  StoreInterface.items (config s) !! config_key = Some "" ->
  Str.truthy p = true ->
  has_masterpassword s = (Returns true, s) /\
  exists s',
    unlock (unlocked (S fuel)) p s = (Returns tt, s') /\
    decrypted_master s' = Some (fresh_master s) /\
    exists c e,
      derive_checksum (fresh_master s) = Ok c /\
      StoreInterface.__getitem__ (config s') config_key
        = Some (c +:+ "$" +:+ fst (AES_encrypt p (fresh_master s) e)).
Proof.
  intros Hi Ht.
  assert (Hc : StoreInterface.__contains__ (config s) config_key = true)
    by (apply contains_spec; rewrite Hi; eauto).
  assert (Hm : has_encrypted_master s = false).
  { unfold has_encrypted_master. rewrite getitem_lookup, Hi, Hc. reflexivity. }
  split.
  - unfold has_masterpassword, gets. rewrite Hc. reflexivity.
  - rewrite (unlock_new _ _ _ Hm Ht). eexists. split; [reflexivity|].
    split; [reflexivity|]. eexists _, _.
    split; [apply fresh_master_checksum|].
    cbn [config initialised]. apply getitem_setitem.
Qed.
End MoreProperties.

(* ===================================================================== *)
(** ** Further properties of [StoreInterface] *)
(* ===================================================================== *)

Section MoreStoreFacts.
Context {K V : Type} `{Countable K}.
Implicit Types (st : StoreInterface.t K V) (key : K) (value : V).

(** X13. A default registered by [setdefault] for a key the store does
    not hold is seen by [store[key]] only: [key in store] is [False],
    [store.get(key, d)] is [d], and the length of the store is what it
    was. *)
Theorem X13_default_seen_by_getitem_only st key value (d : option V) :
  StoreInterface.items st !! key = None ->
  let st' := StoreInterface.setdefault key value st in
  StoreInterface.__getitem__ st' key = Some value /\
  StoreInterface.__contains__ st' key = false /\
  StoreInterface.get st' key d = d /\
  StoreInterface.__len__ st' = StoreInterface.__len__ st.
Proof.
  intros Hi st'. split; [|split; [|split]].
  - unfold st'. rewrite getitem_setdefault, Hi. reflexivity.
  - unfold StoreInterface.__contains__. cbn.
    apply bool_decide_eq_false_2. rewrite Hi. intros [? ?]. discriminate.
  - unfold StoreInterface.get. cbn. rewrite Hi. reflexivity.
  - reflexivity.
Qed.

(** X14. [store[key] = value] changes what the store answers for [key]
    and for no other key: afterwards [key] is in the store, [store[key]]
    and [store.get(key)] are [value] even if a default was registered,
    every other key is looked up and tested as before, and the length
    grows by one exactly when [key] was not in the store. *)
Theorem X14_setitem_frame st key value key' (d : option V) :
  key <> key' ->
  let st' := StoreInterface.__setitem__ key value st in
  StoreInterface.__contains__ st' key = true /\
  StoreInterface.__getitem__ st' key = Some value /\
  StoreInterface.get st' key d = Some value /\
  StoreInterface.__getitem__ st' key' = StoreInterface.__getitem__ st key' /\
  StoreInterface.__contains__ st' key' = StoreInterface.__contains__ st key' /\
  StoreInterface.get st' key' d = StoreInterface.get st key' d /\
  StoreInterface.__len__ st' =
    if StoreInterface.__contains__ st key
    then StoreInterface.__len__ st
    else S (StoreInterface.__len__ st).
Proof.
  intros Hne st'. unfold st'.
  split; [apply contains_setitem|]. split; [apply getitem_setitem|].
  split; [unfold StoreInterface.get, StoreInterface.__setitem__; cbn;
          rewrite lookup_insert_eq; reflexivity|].
  split; [rewrite !getitem_lookup; unfold StoreInterface.__setitem__; cbn;
          rewrite lookup_insert_ne by exact Hne; reflexivity|].
  split; [unfold StoreInterface.__contains__, StoreInterface.__setitem__; cbn;
          rewrite lookup_insert_ne by exact Hne; reflexivity|].
  split; [unfold StoreInterface.get, StoreInterface.__setitem__; cbn;
          rewrite lookup_insert_ne by exact Hne; reflexivity|].
  unfold StoreInterface.__len__, StoreInterface.__contains__,
    StoreInterface.__setitem__. cbn.
  destruct (StoreInterface.items st !! key) as [v|] eqn:Hi.
  - rewrite bool_decide_eq_true_2 by eauto.
    rewrite <- (insert_id _ _ _ Hi) at 2.
    rewrite <- (insert_delete_eq (StoreInterface.items st) key value).
    rewrite <- (insert_delete_eq (StoreInterface.items st) key v).
    rewrite !map_size_insert_None by apply lookup_delete_eq. reflexivity.
  - rewrite bool_decide_eq_false_2 by (intros [? ?]; discriminate).
    apply map_size_insert_None. exact Hi.
Qed.

(** X15. The defaults belong to the classes, not to a store:
    [cls.setdefault(key, value)], called on any of the three classes,
    registers the default for every existing store of every class (a
    store that does not hold [key] then answers [value]) and for the
    stores created afterwards. *)
Theorem X15_defaults_are_shared (p : StoreClasses.program K V)
    (cls cls' : StoreClasses.class) key value (name : nat) st :
  StoreClasses.store p name = Some st ->
  let p' := StoreClasses.setdefault cls key value p in
  StoreClasses.store p' name = Some (StoreInterface.setdefault key value st) /\
  (StoreInterface.items st !! key = None ->
   StoreInterface.__getitem__ (StoreInterface.setdefault key value st) key
     = Some value) /\
  exists st',
    StoreClasses.store (snd (StoreClasses.new cls' p'))
                       (fst (StoreClasses.new cls' p')) = Some st' /\
    StoreInterface.__getitem__ st' key = Some value.
Proof.
  intros Hs p'. split; [|split].
  - unfold StoreClasses.store in *. cbn.
    destruct (StoreClasses.objects p !! name) as [[c held]|]; [|discriminate].
    inversion Hs. reflexivity.
  - intros Hi. rewrite getitem_setdefault, Hi. reflexivity.
  - unfold StoreClasses.store, StoreClasses.new. cbn.
    rewrite lookup_insert_eq. eexists. split; [reflexivity|].
    rewrite getitem_lookup. cbn. rewrite lookup_empty, lookup_insert_eq.
    reflexivity.
Qed.
End MoreStoreFacts.

(* ===================================================================== *)
(** ** Runs of the further properties *)
(* ===================================================================== *)

Section MoreRuns.
#[local] Existing Instance ToyCipher.primitives.

Lemma X1_new_master_refuses_existing_witness :
  has_encrypted_master locked_state = true /\
  new_master (unlocked 1) "swordfish" locked_state =
  (Raises (Exception "Storage already has a masterpassword!"), locked_state).
Proof.
  split; [vm_compute; reflexivity|].
  apply (X1_new_master_refuses_existing (unlocked 1) "swordfish" locked_state).
  vm_compute. reflexivity.
Defined.

Lemma X2_new_master_shape_witness :
  has_encrypted_master fresh_state = false /\
  Str.truthy "hunter2" = true /\
  exists m s',
    new_master (unlocked 1) "hunter2" fresh_state = (Returns (Some m), s') /\
    m = string_of_list_byte (Hex.hexlify (fst (urandom 32 (random fresh_state)))) /\
    String.length m = 64 /\
    is_hex m = true /\
    decrypted_master s' = Some m /\
    password s' = Some "hunter2" /\
    has_masterpassword s' = (Returns true, s').
Proof.
  split; [reflexivity|]. split; [reflexivity|].
  apply (X2_new_master_shape 0 "hunter2" fresh_state); reflexivity.
Defined.

Lemma X3_saved_entry_is_checksummed_witness :
  save_encrypted_master (unlocked 1) unlocked_state
    = (Returns tt, after (save_encrypted_master (unlocked 1)) unlocked_state) /\
  exists p m c e,
    password (after (save_encrypted_master (unlocked 1)) unlocked_state)
      = Some p /\
    Str.truthy p = true /\
    decrypted_master (after (save_encrypted_master (unlocked 1)) unlocked_state)
      = Some m /\
    derive_checksum m = Ok c /\
    String.length c = 4 /\
    StoreInterface.__getitem__
      (config (after (save_encrypted_master (unlocked 1)) unlocked_state))
      config_key
      = Some (c +:+ "$" +:+ fst (AES_encrypt p m e)) /\
    has_encrypted_master
      (after (save_encrypted_master (unlocked 1)) unlocked_state) = true.
Proof.
  split; [vm_compute; reflexivity|].
  apply (X3_saved_entry_is_checksummed 0 unlocked_state
           (after (save_encrypted_master (unlocked 1)) unlocked_state)).
  vm_compute. reflexivity.
Defined.

Lemma X4_unlock_existing_writes_nothing_witness :
  has_encrypted_master locked_state = true /\
  unlock (unlocked 1) "wrong" locked_state
    = (Raises WrongMasterPasswordException, set_password None locked_state) /\
  config (set_password None locked_state) = config locked_state /\
  environ (set_password None locked_state) = environ locked_state /\
  random (set_password None locked_state) = random locked_state.
Proof.
  split; [vm_compute; reflexivity|]. split; [vm_compute; reflexivity|].
  apply (X4_unlock_existing_writes_nothing (unlocked 1) "wrong" locked_state
           (set_password None locked_state)
           (Raises WrongMasterPasswordException));
    vm_compute; reflexivity.
Defined.

Lemma X5_unlock_existing_outcomes_witness :
  has_encrypted_master locked_state = true /\
  split_entry (StoreInterface.__getitem__ (config locked_state) config_key)
    = Ok (saved_checksum, saved_ciphertext) /\
  ((exists d,
      AES_decrypt "hunter2" saved_ciphertext = Ok d /\
      derive_checksum d = Ok saved_checksum /\
      unlock (unlocked 1) "hunter2" locked_state =
      (Returns tt,
       set_decrypted_master (Some d) (set_password (Some "hunter2") locked_state)))
   \/
   ((forall d, AES_decrypt "hunter2" saved_ciphertext = Ok d ->
               derive_checksum d <> Ok saved_checksum) /\
    unlock (unlocked 1) "hunter2" locked_state =
    (Raises WrongMasterPasswordException, set_password None locked_state))).
Proof.
  split; [vm_compute; reflexivity|]. split; [vm_compute; reflexivity|].
  apply (X5_unlock_existing_outcomes (unlocked 1) "hunter2"
           saved_checksum saved_ciphertext locked_state);
    vm_compute; reflexivity.
Defined.

Lemma X6_auto_unlock_restores_master_witness :
  aes_round_trip /\ aes_dollar_free /\
  has_encrypted_master fresh_state_with_env = false /\
  Str.truthy "hunter2" = true /\
  environ fresh_state_with_env !! "UNLOCK" = Some "hunter2" /\
  exists s',
    (unlock (unlocked 1) "hunter2";; lock;; unlocked 1) fresh_state_with_env
      = (Returns true, s') /\
    password s' = Some "hunter2" /\
    decrypted_master s' = Some (fresh_master fresh_state_with_env).
Proof.
  split; [exact toy_round_trip|]. split; [exact toy_dollar_free|].
  split; [reflexivity|]. split; [reflexivity|]. split; [reflexivity|].
  apply (X6_auto_unlock_restores_master toy_round_trip toy_dollar_free
           0 "hunter2" fresh_state_with_env); reflexivity.
Defined.

Lemma X7_encrypt_decrypt_delegate_witness :
  password unlocked_state = Some "hunter2" /\
  Str.truthy "hunter2" = true /\
  bip38_encrypt "5Kwif" (decrypted_master unlocked_state) = Ok wrapped_wif /\
  bip38_decrypt wrapped_wif (decrypted_master unlocked_state) = Ok "5Kwif" /\
  (w ← encrypt (unlocked 1) "5Kwif"; decrypt (unlocked 1) w) unlocked_state
  = (Returns "5Kwif", unlocked_state).
Proof.
  split; [vm_compute; reflexivity|]. split; [reflexivity|].
  split; [vm_compute; reflexivity|]. split; [vm_compute; reflexivity|].
  apply (X7_encrypt_decrypt_delegate 0 unlocked_state "hunter2" "5Kwif")
    with (wrapped := wrapped_wif);
    vm_compute; reflexivity.
Defined.

Lemma X8_lock_then_locked_witness :
  environ unlocked_state !! "UNLOCK" = None /\
  locked (unlocked 1) (after lock unlocked_state)
    = (Returns true, after lock unlocked_state) /\
  decrypt (unlocked 1) wrapped_wif (after lock unlocked_state)
    = (Raises WalletLocked, after lock unlocked_state).
Proof.
  split; [vm_compute; reflexivity|].
  split;
    apply (X8_lock_then_locked 0 unlocked_state wrapped_wif "swordfish");
    vm_compute; reflexivity.
Defined.

Lemma X9_change_to_empty_password_locks_witness :
  password unlocked_state = Some "hunter2" /\
  Str.truthy "hunter2" = true /\
  change_password (unlocked 1) "" unlocked_state
    = (Raises WalletLocked, set_password (Some "") unlocked_state) /\
  unlocked 1 (set_password (Some "") unlocked_state)
    = (Returns false, set_password (Some "") unlocked_state).
Proof.
  split; [vm_compute; reflexivity|]. split; [reflexivity|].
  split;
    apply (X9_change_to_empty_password_locks 0 unlocked_state "hunter2");
    vm_compute; reflexivity.
Defined.

Lemma X10_entry_carries_master_witness :
  aes_round_trip /\ aes_dollar_free /\
  has_encrypted_master fresh_state = false /\
  Str.truthy "hunter2" = true /\
  exists second second',
    __init__ (Some (config (after (unlock (unlocked 1) "hunter2") fresh_state)))
             ∅ counting_tape = Ok second /\
    password second = None /\ decrypted_master second = None /\
    unlock (unlocked 1) "hunter2" second = (Returns tt, second') /\
    decrypted_master second'
      = decrypted_master (after (unlock (unlocked 1) "hunter2") fresh_state) /\
    decrypted_master second' = Some (fresh_master fresh_state) /\
    config second' = config (after (unlock (unlocked 1) "hunter2") fresh_state).
Proof.
  split; [exact toy_round_trip|]. split; [exact toy_dollar_free|].
  split; [reflexivity|]. split; [reflexivity|].
  apply (X10_entry_carries_master toy_round_trip toy_dollar_free
           0 "hunter2" fresh_state ∅ counting_tape); reflexivity.
Defined.

Lemma X11_malformed_entry_witness :
  has_encrypted_master malformed_entry_state = true /\
  split_entry
    (StoreInterface.__getitem__ (config malformed_entry_state) config_key)
    = Raise ValueError /\
  Str.truthy "hunter2" = true /\
  unlock (unlocked 1) "hunter2" malformed_entry_state
    = (Raises ValueError, set_password (Some "hunter2") malformed_entry_state) /\
  unlocked 1 (set_password (Some "hunter2") malformed_entry_state)
    = (Returns true, set_password (Some "hunter2") malformed_entry_state).
Proof.
  split; [vm_compute; reflexivity|]. split; [vm_compute; reflexivity|].
  split; [reflexivity|].
  split;
    apply (X11_malformed_entry 0 "hunter2" malformed_entry_state ValueError);
    vm_compute; reflexivity.
Defined.

Lemma X12_blank_entry_is_replaced_witness :
  StoreInterface.items (config blank_entry_state) !! config_key = Some "" /\
  Str.truthy "hunter2" = true /\
  has_masterpassword blank_entry_state = (Returns true, blank_entry_state).
Proof.
  split; [vm_compute; reflexivity|]. split; [reflexivity|].
  apply (X12_blank_entry_is_replaced 0 "hunter2" blank_entry_state);
    vm_compute; reflexivity.
Defined.
End MoreRuns.

Lemma X13_default_seen_by_getitem_only_witness :
  StoreInterface.items (StoreInterface.empty (K:=string) (V:=string)) !! "node"
    = None /\
  StoreInterface.__getitem__
    (StoreInterface.setdefault "node" "wss://example" StoreInterface.empty)
    "node" = Some "wss://example" /\
  StoreInterface.__contains__
    (StoreInterface.setdefault "node" "wss://example" StoreInterface.empty)
    "node" = false.
Proof.
  split; [reflexivity|].
  split;
    apply (X13_default_seen_by_getitem_only
             (StoreInterface.empty (K:=string) (V:=string))
             "node" "wss://example" None);
    reflexivity.
Defined.

Lemma X14_setitem_frame_witness :
  "node" <> "rpcuser" /\
  StoreInterface.__getitem__
    (StoreInterface.__setitem__ "node" "wss://example"
       (StoreInterface.setdefault "rpcuser" "guest" StoreInterface.empty))
    "rpcuser" = Some "guest" /\
  StoreInterface.__len__
    (StoreInterface.__setitem__ "node" "wss://example"
       (StoreInterface.setdefault "rpcuser" "guest" StoreInterface.empty)) = 1.
Proof.
  split; [discriminate|].
  pose proof (X14_setitem_frame
                (StoreInterface.setdefault "rpcuser" "guest" StoreInterface.empty)
                "node" "wss://example" "rpcuser" None) as Hx.
  split.
  - etransitivity; [apply Hx; discriminate|]. vm_compute. reflexivity.
  - etransitivity; [apply Hx; discriminate|]. vm_compute. reflexivity.
Defined.

Lemma X15_defaults_are_shared_witness :
  StoreClasses.store two_stores 1 = Some (StoreInterface.Store ∅ ∅) /\
  StoreClasses.store
    (StoreClasses.setdefault StoreClasses.class_ConfigInterface
       "node" "wss://default" two_stores) 1
  = Some (StoreInterface.setdefault "node" "wss://default"
            (StoreInterface.Store ∅ ∅)) /\
  StoreInterface.__getitem__
    (StoreInterface.setdefault "node" "wss://default"
       (StoreInterface.Store (K:=string) (V:=string) ∅ ∅)) "node"
  = Some "wss://default".
Proof.
  split; [vm_compute; reflexivity|].
  pose proof (X15_defaults_are_shared two_stores
                StoreClasses.class_ConfigInterface
                StoreClasses.class_KeyInterface
                "node" "wss://default" 1 (StoreInterface.Store ∅ ∅)) as Hx.
  split.
  - apply Hx. vm_compute. reflexivity.
  - apply Hx; [vm_compute; reflexivity|reflexivity].
Defined.
